(** * ts/torch_handler/base_handler.py: the base handler of the model server

    A shallow embedding of [BaseHandler] (constructor, [initialize] and the
    three abstract pipeline stages) and the properties of its initialization
    protocol.

    Python strings are modelled as [string] (ASCII text), Python integers as
    [Z], [None]-able values as [option], dictionaries with string keys as
    [gmap string _] (the process environment) or as the list of pairs of the
    JSON object they were read from.  A call that can raise returns a
    [Res]; the handler instance and the process-wide state ([os.environ], the
    log, the mixed-precision switch of the acceleration library) are threaded
    through a state monad in which a raised exception keeps the state reached
    so far, as in Python. *)

From Stdlib Require Import ZArith String Ascii List Bool Lia.
From Stdlib Require Import DecimalString DecimalN DecimalFacts.
From stdpp Require Import gmap strings list.

Open Scope string_scope.

(** ** Exceptions and results *)

Inductive PyExc : Type :=
| RuntimeError (msg : string)
| ValueError (msg : string)
| KeyError (key : string)
| TypeError (msg : string)
| AttributeError (msg : string)
| ImportError (msg : string)
| OSError (msg : string).

Inductive Res (A : Type) : Type :=
| Ok (a : A)
| Raise (e : PyExc).

Arguments Ok {A} a.
Arguments Raise {A} e.

Definition is_ok {A} (r : Res A) : bool :=
  match r with Ok _ => true | Raise _ => false end.

(** ** Python string primitives *)

Module Py.

(** [str.isspace] on ASCII characters: tab, LF, VT, FF, CR, FS, GS, RS, US
    and the space. *)
Definition is_space (c : ascii) : bool :=
  let n := nat_of_ascii c in
  (((9 <=? n) && (n <=? 13)) || ((28 <=? n) && (n <=? 32)))%nat.

Definition is_digit (c : ascii) : bool :=
  let n := nat_of_ascii c in ((48 <=? n) && (n <=? 57))%nat.

Definition digit_value (c : ascii) : Z := Z.of_nat (nat_of_ascii c) - 48.

Definition is_alpha_ (c : ascii) : bool :=
  let n := nat_of_ascii c in
  (((65 <=? n) && (n <=? 90)) || ((97 <=? n) && (n <=? 122)) || (n =? 95))%nat.

Fixpoint lstrip (s : string) : string :=
  match s with
  | String c s' => if is_space c then lstrip s' else s
  | EmptyString => EmptyString
  end.

(** [s.strip()] *)
Definition strip (s : string) : string :=
  String.rev (lstrip (String.rev (lstrip s))).

(** [needle in s] *)
Fixpoint contains (needle s : string) : bool :=
  String.prefix needle s ||
  match s with
  | String _ s' => contains needle s'
  | EmptyString => false
  end.

(** [s.startswith(c)] and [s.endswith(c)] for a one-character [c]. *)
Definition startswith (c : ascii) (s : string) : bool :=
  match s with
  | String d _ => Ascii.eqb c d
  | EmptyString => false
  end.

Definition endswith (c : ascii) (s : string) : bool :=
  startswith c (String.rev s).

(** [s.split(sep)[0]]: the text before the first separator. *)
Fixpoint split_first (sep : ascii) (s : string) : string :=
  match s with
  | String c s' => if Ascii.eqb c sep then EmptyString
                   else String c (split_first sep s')
  | EmptyString => EmptyString
  end.

(** The text after the first separator, when there is one. *)
Fixpoint after_first (sep : ascii) (s : string) : option string :=
  match s with
  | String c s' => if Ascii.eqb c sep then Some s' else after_first sep s'
  | EmptyString => None
  end.

(** [s.split(sep)[-1]]: the text after the last separator; [cur] is the
    field being read. *)
Fixpoint split_last_from (sep : ascii) (cur s : string) : string :=
  match s with
  | String c s' =>
      if Ascii.eqb c sep then split_last_from sep EmptyString s'
      else split_last_from sep (cur +:+ String c EmptyString) s'
  | EmptyString => cur
  end.

Definition split_last (sep : ascii) (s : string) : string :=
  split_last_from sep EmptyString s.

(** [str(n)] for an integer.  Python refuses to print an integer of more
    than 4300 digits; such integers are outside this model, which prints
    every integer. *)
Definition str_int (n : Z) : string :=
  NilZero.string_of_int (Z.to_int n).

(** [str(v)] for an integer or [None]. *)
Definition str_opt_int (v : option Z) : string :=
  match v with
  | Some n => str_int n
  | None => "None"
  end.

(** The run of digits at the head of an integer literal: decimal digits,
    single underscores allowed between two digits.  The result is the value
    read, the number of digits and the text left; [None] when an underscore
    follows an underscore or ends the run.  [us] tells that the previous
    character was an underscore. *)
Fixpoint scan_digits (acc count : Z) (us : bool) (s : string)
  : option (Z * Z * string) :=
  match s with
  | String c s' =>
      if is_digit c then scan_digits (10 * acc + digit_value c) (count + 1) false s'
      else if Ascii.eqb c "_" then
        if us then None else scan_digits acc count true s'
      else if us then None else Some (acc, count, s)
  | EmptyString => if us then None else Some (acc, count, s)
  end.

(** The most digits [int] converts ([sys.get_int_max_str_digits()]). *)
Definition max_str_digits : Z := 4300.

(** The white space [int] skips around a literal: that of C's [isspace],
    which is tab, LF, VT, FF, CR and the space.  The separators FS, GS, RS and
    US, which [str.strip] removes, are not skipped by [int]. *)
Definition is_space_c (c : ascii) : bool :=
  let n := nat_of_ascii c in
  (((9 <=? n) && (n <=? 13)) || (n =? 32))%nat.

Fixpoint lstrip_c (s : string) : string :=
  match s with
  | String c s' => if is_space_c c then lstrip_c s' else s
  | EmptyString => EmptyString
  end.

(** [repr(s)].  The quote is the apostrophe, or the double quote when the
    text has an apostrophe and no double quote; the quote and the backslash
    are escaped, tab, LF and CR are written with their letter, and the other
    characters that do not print are written in hexadecimal. *)
Definition backslash : ascii := ascii_of_nat 92.
Definition apostrophe : ascii := ascii_of_nat 39.
Definition double_quote : ascii := ascii_of_nat 34.

Definition hex_digit (n : nat) : ascii :=
  if (n <? 10)%nat then ascii_of_nat (48 + n) else ascii_of_nat (87 + n).

Definition printable (c : ascii) : bool :=
  let n := nat_of_ascii c in
  (((32 <=? n) && (n <=? 126)) || ((161 <=? n) && negb (n =? 173)))%nat.

Definition escape (c x : ascii) : string := String c (String x EmptyString).

Definition repr_char (quote c : ascii) : string :=
  let n := nat_of_ascii c in
  if Ascii.eqb c quote || Ascii.eqb c backslash then escape backslash c
  else if (n =? 9)%nat then escape backslash "t"
  else if (n =? 10)%nat then escape backslash "n"
  else if (n =? 13)%nat then escape backslash "r"
  else if printable c then String c EmptyString
  else String backslash
         (String "x" (String (hex_digit (n / 16)) (String (hex_digit (n mod 16)) EmptyString))).

Fixpoint has_char (c : ascii) (s : string) : bool :=
  match s with
  | String d s' => Ascii.eqb c d || has_char c s'
  | EmptyString => false
  end.

Fixpoint repr_body (quote : ascii) (s : string) : string :=
  match s with
  | String c s' => repr_char quote c +:+ repr_body quote s'
  | EmptyString => EmptyString
  end.

Definition repr (s : string) : string :=
  let quote := if has_char apostrophe s && negb (has_char double_quote s)
               then double_quote else apostrophe in
  String quote (repr_body quote s +:+ String quote EmptyString).

(** [int(s)]: leading white space, an optional sign, digits, trailing white
    space.  A run of more than 4300 digits is refused before it is converted;
    the message of the other error shows [repr(s)], cut after 200
    characters. *)
Definition int (s : string) : Res Z :=
  let invalid := Raise (ValueError ("invalid literal for int() with base 10: "
                                    +:+ substring 0 200 (repr s))) in
  let t := lstrip_c s in
  let '(sign, u) :=
    match t with
    | String "+" r => (1, r)
    | String "-" r => (-1, r)
    | _ => (1, t)
    end%Z in
  if startswith "_" u then invalid
  else
    match scan_digits 0 0 false u with
    | None => invalid
    | Some (v, count, rest) =>
        if (max_str_digits <? count)%Z then
          Raise (ValueError ("Exceeds the limit (4300 digits) for integer string conversion: value has "
                             +:+ str_int count
                             +:+ " digits; use sys.set_int_max_str_digits() to increase the limit"))
        else if (count =? 0)%Z then invalid
        else if String.eqb (lstrip_c rest) EmptyString then Ok (sign * v)%Z
        else invalid
    end.

(** [os.path.join(a, b)] of [posixpath]. *)
Definition os_path_join (a b : string) : string :=
  if startswith "/" b then b
  else if String.eqb a EmptyString || endswith "/" a then a +:+ b
  else a +:+ "/" +:+ b.

End Py.

(** ** Devices: [torch.device]

    [torch.device(s)] is a call into the tensor library.  It accepts a
    device type made of letters and underscores, optionally followed by a
    colon and an index written as a decimal numeral without sign and without
    leading zero, and raises [RuntimeError] on anything else.  The numeral is
    read as a C [int], so a numeral above 2147483647 is refused, and the
    value is then kept in a signed 8-bit integer: 127 stays 127, 128 becomes
    -128 and 256 becomes 0.  The table of device types compiled into the
    library depends on the build and is not modelled: a well-formed type name
    is taken as known. *)

Record Device : Type := mkDevice {
  dev_type : string;
  dev_index : option Z
}.

#[global] Instance Device_eq_dec : EqDecision Device.
Proof. solve_decision. Defined.

Definition device_type_ok (t : string) : bool :=
  negb (String.eqb t EmptyString) && forallb Py.is_alpha_ (list_ascii_of_string t).

(** The value of a decimal numeral without sign and without leading zero;
    [None] for any other text. *)
Definition index_numeral (s : string) : option N :=
  match NilZero.uint_of_string s with
  | Some d =>
      if String.eqb (NilZero.string_of_uint (Decimal.unorm d)) s
      then Some (N.of_uint d) else None
  | None => None
  end.

(** The largest C [int]. *)
Definition INT_MAX : Z := 2147483647.

(** The cast of an [int] to the signed 8-bit integer of a device index. *)
Definition to_device_index (v : Z) : Z := (v + 128) mod 256 - 128.

(** The index of a device string, from the text after the colon. *)
Definition parse_index (s i : string) : Res Z :=
  match index_numeral i with
  | Some n =>
      if (Z.of_N n <=? INT_MAX)%Z then Ok (to_device_index (Z.of_N n))
      else Raise (RuntimeError ("Could not parse device index '" +:+ i
                                +:+ "' in device string '" +:+ s +:+ "'"))
  | None => Raise (RuntimeError ("Invalid device string: '" +:+ s +:+ "'"))
  end.

Definition torch_device (s : string) : Res Device :=
  let invalid := Raise (RuntimeError ("Invalid device string: '" +:+ s +:+ "'")) in
  let t := Py.split_first ":" s in
  if String.eqb s EmptyString then
    Raise (RuntimeError "Device string must not be empty")
  else if device_type_ok t then
    match Py.after_first ":" s with
    | None => Ok (mkDevice t None)
    | Some i =>
        match parse_index s i with
        | Ok n => Ok (mkDevice t (Some n))
        | Raise e => Raise e
        end
    end
  else invalid.

(** The general-purpose processor and the accelerator number [n]. *)
Definition cpu : Device := mkDevice "cpu" None.
Definition cuda (n : Z) : Device := mkDevice "cuda" (Some n).

(** ** Models, classes and modules *)

(** A state dict: named parameter tensors (flattened). *)
Definition StateDict : Type := list (string * list Z).

(** A module object of the tensor library ([torch.nn.Module] or a loaded
    script module): its class, its parameters, the strict key and shape check
    its [load_state_dict] applies, its training flag and the device its
    parameters live on. *)
Record ModelHandle : Type := mkModel {
  mh_class : string;
  mh_state : StateDict;
  mh_accepts : StateDict -> bool;
  mh_training : bool;
  mh_device : Device
}.

(** [m.load_state_dict(sd)], strict: a state dict that does not fit raises.
    What a failing call has already copied into the module is not
    modelled. *)
Definition load_state_dict (m : ModelHandle) (sd : StateDict) : Res ModelHandle :=
  if mh_accepts m sd
  then Ok (mkModel (mh_class m) sd (mh_accepts m) (mh_training m) (mh_device m))
  else Raise (RuntimeError ("Error(s) in loading state_dict for " +:+ mh_class m)).

(** [m.eval()] *)
Definition model_eval (m : ModelHandle) : ModelHandle :=
  mkModel (mh_class m) (mh_state m) (mh_accepts m) false (mh_device m).

(** A class object: where it was defined, its name, and what calling it
    without arguments gives. *)
Record PyClass : Type := mkClass {
  cls_module : string;
  cls_name : string;
  cls_call : Res ModelHandle
}.

Inductive PyMember : Type :=
| MClass (c : PyClass)
| MOther.

Record PyModule : Type := mkModule {
  mod_name : string;
  mod_members : list (string * PyMember)
}.

(** Modelled from the spec: [list_classes_from_module] of [ts/utils/util.py],
    which [initialize] imports and calls, is not among the sources.  The spec
    has it "enumerate all model-class definitions declared directly in that
    module (not imported from elsewhere)": the members of the module that are
    classes whose defining module is the module itself. *)
Definition list_classes_from_module (module : PyModule) : list PyClass :=
  flat_map (fun nm =>
              match snd nm with
              | MClass c => if String.eqb (cls_module c) (mod_name module)
                            then [c] else []
              | MOther => []
              end)
           (mod_members module).

(** [repr] of a class and of a list of classes, as ["{}".format] prints it. *)
Definition repr_class (c : PyClass) : string :=
  "<class '" +:+ cls_module c +:+ "." +:+ cls_name c +:+ "'>".

Fixpoint join_comma (l : list string) : string :=
  match l with
  | [] => EmptyString
  | [x] => x
  | x :: l' => x +:+ ", " +:+ join_comma l'
  end.

Definition repr_classes (l : list PyClass) : string :=
  "[" +:+ join_comma (map repr_class l) +:+ "]".

(** ** JSON values, as [json.load] returns them *)

#[warnings="-register-all"]
Inductive Json : Type :=
| JNull
| JBool (b : bool)
| JNum (n : Z)
| JStr (s : string)
| JArr (l : list Json)
| JObj (kvs : list (string * Json)).

(** A key handed to [d.get]: a string or an integer.  Keys of different
    types are never equal. *)
Inductive PyKey : Type :=
| KStr (s : string)
| KInt (n : Z).

Definition key_eqb (a b : PyKey) : bool :=
  match a, b with
  | KStr x, KStr y => String.eqb x y
  | KInt x, KInt y => (x =? y)%Z
  | _, _ => false
  end.

(** [d.get(k)] on the dictionary read from a JSON object: its keys are the
    member names, which are strings; of two members with the same name the
    later one is kept. *)
Definition mapping_get (k : PyKey) (j : Json) : option Json :=
  match j with
  | JObj kvs =>
      fold_left (fun acc kv => if key_eqb (KStr (fst kv)) k then Some (snd kv) else acc)
                kvs None
  | _ => None
  end.

(** ** The deployment context *)

Record ModelSection : Type := mkModelSection {
  serializedFile : option string;
  modelFile : option string
}.

Record Manifest : Type := mkManifest {
  manifest_model : option ModelSection
}.

Record Properties : Type := mkProperties {
  model_dir : option string;
  gpu_id : option Z
}.

Record Context : Type := mkContext {
  ctx_manifest : Manifest;
  system_properties : Properties
}.

(** ** The host: what the calls into the platform answer *)

(** The optional acceleration library [intel_pytorch_extension]. *)
Record IpexLib : Type := mkIpex {
  DEVICE : string;
  enable_auto_mix_precision : Res unit
}.

Record Host : Type := mkHost {
  cuda_is_available : bool;                          (* torch.cuda.is_available() *)
  intel_pytorch_extension : Res IpexLib;             (* the import statement *)
  popen_lscpu : Res (list string);                   (* os.popen('lscpu').readlines() *)
  isfile : string -> bool;                           (* os.path.isfile *)
  import_module : string -> Res PyModule;            (* importlib.import_module *)
  torch_load : string -> string -> Res StateDict;    (* torch.load(path, map_location) *)
  torch_jit_load : string -> string -> Res ModelHandle; (* torch.jit.load(path, map_location) *)
  device_ready : Device -> bool;                     (* can a module be moved there *)
  json_load : string -> Res Json                     (* open(path) and json.load *)
}.

(** [m.to(d)] *)
Definition model_to (host : Host) (m : ModelHandle) (d : Device) : Res ModelHandle :=
  if device_ready host d
  then Ok (mkModel (mh_class m) (mh_state m) (mh_accepts m) (mh_training m) d)
  else Raise (RuntimeError ("cannot move the module to device " +:+ dev_type d)).

(** ** The handler instance and the process state *)

Record BaseHandler : Type := mkHandler {
  model : option ModelHandle;
  mapping : option Json;
  device : option Device;
  initialized : bool;
  manifest : option Manifest
}.

(** Lines 22-27: [BaseHandler.__init__]. *)
Definition new_handler : BaseHandler :=
  mkHandler None None None false None.

Inductive LogLevel : Type := DEBUG | WARNING.

Record Process : Type := mkProcess {
  self : BaseHandler;
  environ : gmap string string;      (* os.environ *)
  amp_enabled : bool;                (* mixed precision switched on in the library *)
  log : list (LogLevel * string)     (* records emitted by [logger], oldest first *)
}.

(** A fresh process holding a newly constructed handler. *)
Definition fresh_process (env : gmap string string) : Process :=
  mkProcess new_handler env false [].

(** ** The monad of handler code

    A computation reads and updates the process state and either returns a
    value or raises.  State changes made before a [raise] stay. *)

Definition M (A : Type) : Type := Process -> Res A * Process.

Definition ret {A} (a : A) : M A := fun p => (Ok a, p).

Definition bind {A B} (m : M A) (k : A -> M B) : M B :=
  fun p => match m p with
           | (Ok a, p') => k a p'
           | (Raise e, p') => (Raise e, p')
           end.

Definition raise {A} (e : PyExc) : M A := fun p => (Raise e, p).

(** The outcome of a call that does not touch the process state. *)
Definition lift {A} (r : Res A) : M A := fun p => (r, p).

(** [try: m except: pass] *)
Definition try_except_pass (m : M unit) : M unit :=
  fun p => (Ok tt, snd (m p)).

Declare Scope py_scope.
Delimit Scope py_scope with py.
Notation "x <- m ;; k" := (bind m (fun x => k))
  (at level 100, m at next level, right associativity) : py_scope.
Notation "m ;; k" := (bind m (fun _ => k))
  (at level 100, right associativity) : py_scope.
Open Scope py_scope.

Definition get_self : M BaseHandler := fun p => (Ok (self p), p).
Definition get_environ : M (gmap string string) := fun p => (Ok (environ p), p).

Definition put_self (h : BaseHandler) : M unit :=
  fun p => (Ok tt, mkProcess h (environ p) (amp_enabled p) (log p)).

Definition set_manifest (m : Manifest) : M unit :=
  h <- get_self ;;
  put_self (mkHandler (model h) (mapping h) (device h) (initialized h) (Some m)).

Definition set_device (d : Device) : M unit :=
  h <- get_self ;;
  put_self (mkHandler (model h) (mapping h) (Some d) (initialized h) (manifest h)).

Definition set_model (m : ModelHandle) : M unit :=
  h <- get_self ;;
  put_self (mkHandler (Some m) (mapping h) (device h) (initialized h) (manifest h)).

Definition set_mapping (j : Json) : M unit :=
  h <- get_self ;;
  put_self (mkHandler (model h) (Some j) (device h) (initialized h) (manifest h)).

Definition set_initialized (b : bool) : M unit :=
  h <- get_self ;;
  put_self (mkHandler (model h) (mapping h) (device h) b (manifest h)).

(** [os.environ[k] = v] *)
Definition setenv (k v : string) : M unit :=
  fun p => (Ok tt, mkProcess (self p) (<[k := v]> (environ p)) (amp_enabled p) (log p)).

(** [ipex.enable_auto_mix_precision()] *)
Definition enable_amp (ipex : IpexLib) : M unit :=
  lift (enable_auto_mix_precision ipex) ;;
  fun p => (Ok tt, mkProcess (self p) (environ p) true (log p)).

Definition logger (lvl : LogLevel) (msg : string) : M unit :=
  fun p => (Ok tt, mkProcess (self p) (environ p) (amp_enabled p) (log p ++ [(lvl, msg)])).

(** [d[k]] on a field that may be missing. *)
Definition getitem {A} (k : string) (v : option A) : M A :=
  match v with
  | Some a => ret a
  | None => raise (KeyError k)
  end.

(** [v[...]] where [v] may be [None]. *)
Definition subscriptable {A} (v : option A) : M A :=
  match v with
  | Some a => ret a
  | None => raise (TypeError "'NoneType' object is not subscriptable")
  end.

(** [os.path.join(a, b)] where [a] may be [None]. *)
Definition path_join (a : option string) (b : string) : M string :=
  match a with
  | Some a => ret (Py.os_path_join a b)
  | None => raise (TypeError "expected str, bytes or os.PathLike object, not NoneType")
  end.

(** ** [BaseHandler.initialize] *)

(** Line 36: ['cuda' if torch.cuda.is_available() else 'cpu']. *)
Definition map_location_of (host : Host) : string :=
  if cuda_is_available host then "cuda" else "cpu".

(** Lines 37-38, the argument of [torch.device]:
    [map_location + ":" + str(properties.get("gpu_id"))] on a host with an
    accelerator, [map_location] otherwise. *)
Definition device_string (host : Host) (properties : Properties) : string :=
  if cuda_is_available host
  then map_location_of host +:+ ":" +:+ Py.str_opt_int (gpu_id properties)
  else map_location_of host.

(** Lines 37-38, device resolution: [self.device = torch.device(...)]. *)
Definition resolve_device (host : Host) (properties : Properties) : M unit :=
  d <- lift (torch_device (device_string host properties)) ;;
  set_device d.

Definition KMP_compact : string := "granularity=fine,verbose,compact".
Definition KMP_compact_1_0 : string := "granularity=fine,verbose,compact,1,0".

(** Line 49: [[val.strip().split(" ")[-1] for val in lscpu if "per core" in val]]. *)
Definition per_core_of (lscpu : list string) : list string :=
  map (fun val => Py.split_last " " (Py.strip val))
      (List.filter (Py.contains "per core") lscpu).

(** Line 50: [len(per_core) > 0 and int(per_core[0]) == 1]. *)
Definition one_thread_per_core (per_core : list string) : Res bool :=
  match per_core with
  | first :: _ =>
      match Py.int first with
      | Ok n => Ok (n =? 1)%Z
      | Raise e => Raise e
      end
  | [] => Ok false
  end.

(** Lines 42-53: the body of the [try] of the acceleration probe. *)
Definition ipex_probe (host : Host) : M unit :=
  ipex <- lift (intel_pytorch_extension host) ;;
  d <- lift (torch_device (DEVICE ipex)) ;;
  set_device d ;;
  env <- get_environ ;;
  (match env !! "IPEX_DISABLE_MIXED_PRECISION" with
   | None => enable_amp ipex
   | Some _ => ret tt
   end) ;;
  lscpu <- lift (popen_lscpu host) ;;
  single <- lift (one_thread_per_core (per_core_of lscpu)) ;;
  if single then setenv "KMP_AFFINITY" KMP_compact
  else setenv "KMP_AFFINITY" KMP_compact_1_0.

(** Lines 68-77, the eager branch: the model definition file is there.
    [len(model_class_definitions) != 1] raises; otherwise the list is the one
    class [model_class_definitions[0]]. *)
Definition load_eager (host : Host) (model_file model_pt_path map_location : string) : M unit :=
  module <- lift (import_module host (Py.split_first "." model_file)) ;;
  let model_class_definitions := list_classes_from_module module in
  match model_class_definitions with
  | [model_class] =>
      state_dict <- lift (torch_load host model_pt_path map_location) ;;
      m <- lift (cls_call model_class) ;;
      set_model m ;;
      m' <- lift (load_state_dict m state_dict) ;;
      set_model m'
  | _ =>
      raise (ValueError ("Expected only one class as model definition. "
                         +:+ repr_classes model_class_definitions))
  end.

(** Lines 79-80, the script branch. *)
Definition load_script (host : Host) (model_pt_path map_location : string) : M unit :=
  logger DEBUG "No model file found for eager mode, trying to load torchscript model" ;;
  m <- lift (torch_jit_load host model_pt_path map_location) ;;
  set_model m.

(** Lines 81-82: [self.model.to(self.device)] then [self.model.eval()]. *)
Definition place_and_eval (host : Host) : M unit :=
  h <- get_self ;;
  match model h, device h with
  | Some m, Some d =>
      m' <- lift (model_to host m d) ;;
      set_model m' ;;
      set_model (model_eval m')
  | _, _ => raise (AttributeError "'NoneType' object has no attribute 'to'")
  end.

(** Lines 57-84: from [serialized_file = ...] to the "loaded successfully"
    record. *)
Definition load_model (host : Host) (dir : option string) (map_location : string) : M unit :=
  h <- get_self ;;
  man <- subscriptable (manifest h) ;;
  section <- getitem "model" (manifest_model man) ;;
  serialized_file <- getitem "serializedFile" (serializedFile section) ;;
  model_pt_path <- path_join dir serialized_file ;;
  if negb (isfile host model_pt_path) then
    raise (RuntimeError "Missing the model.pt file")
  else
    let model_file := default EmptyString (modelFile section) in
    model_def_path <- path_join dir model_file ;;
    (if isfile host model_def_path
     then load_eager host model_file model_pt_path map_location
     else load_script host model_pt_path map_location) ;;
    place_and_eval host ;;
    logger DEBUG ("Model file " +:+ model_pt_path +:+ " loaded successfully").

Definition missing_mapping_warning : string :=
  "Missing the index_to_name.json file. Inference output will not include class name.".

(** Lines 86-93: reading the mapping file, index to object name. *)
Definition load_mapping (host : Host) (dir : option string) : M unit :=
  mapping_file_path <- path_join dir "index_to_name.json" ;;
  if isfile host mapping_file_path then
    j <- lift (json_load host mapping_file_path) ;;
    set_mapping j
  else
    logger WARNING missing_mapping_warning.

(** Lines 29-95. *)
Definition initialize (host : Host) (ctx : Context) : M unit :=
  set_manifest (ctx_manifest ctx) ;;
  let properties := system_properties ctx in
  let dir := model_dir properties in
  let map_location := map_location_of host in
  resolve_device host properties ;;
  (if String.eqb map_location "cpu"
   then try_except_pass (ipex_probe host)
   else ret tt) ;;
  load_model host dir map_location ;;
  load_mapping host dir ;;
  set_initialized true.

(** ** The pipeline stages

    [preprocess], [inference] and [postprocess] are abstract methods whose
    body is [pass]: a subclass has to override them, and the inherited body,
    reached through [super()], returns [None]. *)

Inductive PyVal : Type :=
| PyNone
| PyData (payload : list Z).

Definition preprocess (data : PyVal) : M PyVal := ret PyNone.
Definition inference (data : PyVal) : M PyVal := ret PyNone.
Definition postprocess (data : PyVal) : M PyVal := ret PyNone.

(** ** The handler states of the specification

    The class keeps one flag, [initialized].  The three states of the
    specification are read off the flag and the outcome of the last call of
    [initialize]: a handler whose flag is set is [Initialized]; an unset flag
    after a call that raised is [Failed]; otherwise it is [Uninitialized]. *)

Inductive HandlerState : Type := Uninitialized | Initialized | Failed.

Definition state_after {A} (out : Res A * Process) : HandlerState :=
  if initialized (self (snd out)) then Initialized
  else match fst out with
       | Raise _ => Failed
       | Ok _ => Uninitialized
       end.

(** ** Sample hosts and contexts *)

Module Samples.

(** A script module as [torch.jit.load] returns it: here saved in training
    mode, on the general-purpose processor. *)
Definition scripted : ModelHandle :=
  mkModel "RecursiveScriptModule" [("fc.weight", [1; 2]%Z)] (fun _ => true) true cpu.

(** A model class [model.Net] with one parameter tensor of two elements. *)
Definition net_accepts (sd : StateDict) : bool :=
  match sd with
  | [(k, v)] => String.eqb k "fc.weight" && (length v =? 2)%nat
  | _ => false
  end.

Definition Net : PyClass :=
  mkClass "model" "Net" (Ok (mkModel "Net" [("fc.weight", [0; 0]%Z)] net_accepts true cpu)).

(** A class [model.Wide] whose parameter tensor has three elements. *)
Definition Wide : PyClass :=
  mkClass "model" "Wide"
    (Ok (mkModel "Wide" [("fc.weight", [0; 0; 0]%Z)]
           (fun sd => match sd with
                      | [(k, v)] => String.eqb k "fc.weight" && (length v =? 3)%nat
                      | _ => false
                      end)
           true cpu)).

Definition Other : PyClass :=
  mkClass "model" "Other" (Raise (TypeError "not a model")).

Definition Imported : PyClass :=
  mkClass "torch.nn.modules.linear" "Linear" (Raise (TypeError "missing arguments")).

Definition module_of (classes : list PyClass) : PyModule :=
  mkModule "model"
    (map (fun c => (cls_name c, MClass c)) classes ++ [("torch", MOther)]).

Definition in_paths (paths : list string) (path : string) : bool :=
  existsb (String.eqb path) paths.

Definition labels : Json := JObj [("0", JStr "cat"); ("1", JStr "dog")].

(** A host: accelerator or not, acceleration library or not, the output of
    [lscpu], the regular files, and the classes of the module [model]. *)
Definition host_of (accelerator : bool) (ipex : Res IpexLib) (lscpu : list string)
    (files : list string) (classes : list PyClass) : Host :=
  mkHost accelerator ipex (Ok lscpu) (in_paths files)
    (fun name => if String.eqb name "model" then Ok (module_of classes)
                 else Raise (ImportError ("No module named '" +:+ name +:+ "'")))
    (fun path _ => if String.eqb path "/m/model.pt" then Ok [("fc.weight", [3; 4]%Z)]
                   else Raise (OSError path))
    (fun path _ => if String.eqb path "/m/model.pt" then Ok scripted
                   else Raise (OSError path))
    (fun _ => true)
    (fun path => if String.eqb path "/m/index_to_name.json" then Ok labels
                 else Raise (OSError path)).

Definition no_ipex : Res IpexLib :=
  Raise (ImportError "No module named 'intel_pytorch_extension'").

Definition ipex_ok : Res IpexLib := Ok (mkIpex "dpcpp" (Ok tt)).

(** The library on a processor without the instructions it needs. *)
Definition ipex_amp_fails : Res IpexLib :=
  Ok (mkIpex "dpcpp" (Raise (RuntimeError "mixed precision is not supported"))).

(** The lines of [lscpu] as [readlines] gives them, newline included. *)
Definition nl : string := String (ascii_of_nat 10) EmptyString.

Definition lscpu_lines (threads_per_core : string) : list string :=
  ["Architecture:        x86_64" +:+ nl;
   "Thread(s) per core:  " +:+ threads_per_core +:+ nl;
   "Core(s) per socket:  8" +:+ nl].

Definition lscpu_ht : list string := lscpu_lines "2".
Definition lscpu_no_ht : list string := lscpu_lines "1".

(** [lscpu] prints a dash for a field it cannot tell. *)
Definition lscpu_unknown : list string := lscpu_lines "-".

Definition context_of (gpu : option Z) (model_file : option string) : Context :=
  mkContext (mkManifest (Some (mkModelSection (Some "model.pt") model_file)))
            (mkProperties (Some "/m") gpu).

End Samples.

(** More samples: contexts with a missing entry, a host whose mapping file
    does not parse. *)
Module MoreSamples.

(** Contexts with a missing entry. *)
Definition no_model_entry : Context :=
  mkContext (mkManifest None) (mkProperties (Some "/m") None).

Definition no_serialized_file : Context :=
  mkContext (mkManifest (Some (mkModelSection None (Some "model.py"))))
            (mkProperties (Some "/m") None).

Definition no_model_dir : Context :=
  mkContext (mkManifest (Some (mkModelSection (Some "model.pt") None)))
            (mkProperties None None).

(** A host whose mapping file does not parse. *)
Definition with_broken_mapping (host : Host) : Host :=
  mkHost (cuda_is_available host) (intel_pytorch_extension host) (popen_lscpu host)
         (isfile host) (import_module host) (torch_load host) (torch_jit_load host)
         (device_ready host)
         (fun _ => Raise (ValueError "Expecting value: line 1 column 1 (char 0)")).

End MoreSamples.

(** No line of [lscpu] contains "per core". *)
Definition no_per_core (lines : list string) : bool :=
  forallb (fun val => negb (Py.contains "per core" val)) lines.

(** ** The steps of [initialize], named for the statements below *)

(** The process after [self.manifest = ctx.manifest] and
    [self.device = d0]. *)
Definition after_resolve (ctx : Context) (d0 : Device) (p : Process) : Process :=
  snd (set_device d0 (snd (set_manifest (ctx_manifest ctx) p))).

(** The process after the acceleration probe, which runs on hosts without
    accelerator only. *)
Definition after_probe (host : Host) (p : Process) : Process :=
  if cuda_is_available host then p else snd (ipex_probe host p).

(** Everything before the label mapping is read. *)
Definition prepare (host : Host) (ctx : Context) : M unit :=
  set_manifest (ctx_manifest ctx) ;;
  resolve_device host (system_properties ctx) ;;
  (if String.eqb (map_location_of host) "cpu"
   then try_except_pass (ipex_probe host)
   else ret tt) ;;
  load_model host (model_dir (system_properties ctx)) (map_location_of host).

(** The device the handler holds once the probe is over, [d0] being the one
    resolved first. *)
Definition probed_device (host : Host) (d0 : Device) : Device :=
  if cuda_is_available host then d0
  else match intel_pytorch_extension host with
       | Ok ipex =>
           match torch_device (DEVICE ipex) with
           | Ok d => d
           | Raise _ => d0
           end
       | Raise _ => d0
       end.

(** The path of the serialized model, when the context names one. *)
Definition artifact_path (ctx : Context) : option string :=
  match model_dir (system_properties ctx), manifest_model (ctx_manifest ctx) with
  | Some dir, Some section =>
      match serializedFile section with
      | Some file => Some (Py.os_path_join dir file)
      | None => None
      end
  | _, _ => None
  end.

(** The path of the model definition file: [modelFile], or the empty name,
    joined to the model directory. *)
Definition model_def_path (ctx : Context) : option string :=
  match model_dir (system_properties ctx), manifest_model (ctx_manifest ctx) with
  | Some dir, Some section =>
      Some (Py.os_path_join dir (default EmptyString (modelFile section)))
  | _, _ => None
  end.

Definition model_file_of (ctx : Context) : string :=
  match manifest_model (ctx_manifest ctx) with
  | Some section => default EmptyString (modelFile section)
  | None => EmptyString
  end.

Definition mapping_path (ctx : Context) : option string :=
  match model_dir (system_properties ctx) with
  | Some dir => Some (Py.os_path_join dir "index_to_name.json")
  | None => None
  end.

Definition missing_artifact : PyExc := RuntimeError "Missing the model.pt file".

Definition ambiguous_model_definition (candidates : list PyClass) : PyExc :=
  ValueError ("Expected only one class as model definition. " +:+ repr_classes candidates).

(** The name of the variable that switches mixed precision off. *)
Definition mixed_precision_override : string := "IPEX_DISABLE_MIXED_PRECISION".

(** ** What the steps write

    Relations between the process before and after a step, one per group of
    steps, listing the fields the steps leave alone. *)

(** The model-loading steps write [self.model] and the log, nothing else. *)
Record model_frame (p p' : Process) : Prop := {
  mf_device : device (self p') = device (self p);
  mf_mapping : mapping (self p') = mapping (self p);
  mf_initialized : initialized (self p') = initialized (self p);
  mf_manifest : manifest (self p') = manifest (self p);
  mf_environ : environ p' = environ p;
  mf_amp : amp_enabled p' = amp_enabled p
}.

(** Reading the mapping writes [self.mapping] and the log, nothing else. *)
Record mapping_frame (p p' : Process) : Prop := {
  pf_model : model (self p') = model (self p);
  pf_device : device (self p') = device (self p);
  pf_initialized : initialized (self p') = initialized (self p);
  pf_manifest : manifest (self p') = manifest (self p);
  pf_environ : environ p' = environ p;
  pf_amp : amp_enabled p' = amp_enabled p
}.

(** The probe writes [self.device], the environment and the mixed-precision
    switch, nothing else. *)
Record probe_frame (p p' : Process) : Prop := {
  bf_model : model (self p') = model (self p);
  bf_mapping : mapping (self p') = mapping (self p);
  bf_initialized : initialized (self p') = initialized (self p);
  bf_manifest : manifest (self p') = manifest (self p);
  bf_log : log p' = log p
}.

(** * Properties *)

(** ** The monad *)

Section Monad.
Context {A B : Type}.
Implicit Types (m : M A) (k : A -> M B) (p : Process).

Lemma bind_ok m k p a p1 : m p = (Ok a, p1) -> bind m k p = k a p1.
Proof. intros H. unfold bind. rewrite H. reflexivity. Qed.

Lemma bind_raise m k p e p1 : m p = (Raise e, p1) -> bind m k p = (Raise e, p1).
Proof. intros H. unfold bind. rewrite H. reflexivity. Qed.

Lemma bind_inv_ok m k p b p' :
  bind m k p = (Ok b, p') ->
  exists a p1, m p = (Ok a, p1) /\ k a p1 = (Ok b, p').
Proof.
  unfold bind. destruct (m p) as [[a|e] p1]; intros H; [eauto | discriminate].
Qed.

Lemma bind_inv_raise m k p e p' :
  bind m k p = (Raise e, p') ->
  m p = (Raise e, p') \/ exists a p1, m p = (Ok a, p1) /\ k a p1 = (Raise e, p').
Proof.
  unfold bind. destruct (m p) as [[a|e0] p1]; intros H; [eauto | left; injection H as -> ->; reflexivity].
Qed.
End Monad.

(** ** What each step leaves alone *)

Ltac run :=
  repeat first
    [ progress cbn [bind ret raise lift fst snd get_self put_self set_model
                    set_device set_manifest set_mapping set_initialized logger
                    getitem subscriptable path_join get_environ setenv
                    self environ amp_enabled log
                    model mapping device initialized manifest] in *
    | progress unfold bind, ret, raise, lift, get_self, put_self, set_model,
        set_device, set_manifest, set_mapping, set_initialized, logger,
        getitem, subscriptable, path_join, get_environ, setenv in *
    | case_match; simplify_eq ].

Lemma place_and_eval_ok host p p' :
  place_and_eval host p = (Ok tt, p') ->
  exists m d, model (self p') = Some m /\ device (self p') = Some d /\
              mh_training m = false /\ mh_device m = d /\
              device (self p) = Some d /\
              initialized (self p') = initialized (self p) /\
              mapping (self p') = mapping (self p) /\
              manifest (self p') = manifest (self p) /\
              environ p' = environ p /\ amp_enabled p' = amp_enabled p /\
              log p' = log p.
Proof.
  unfold place_and_eval, model_to. intros H. run.
  match goal with Hd : device _ = Some ?d |- _ => eexists _, d end.
  cbn. repeat split; try reflexivity; assumption.
Qed.

Lemma load_eager_frame host model_file path ml p :
  model_frame p (snd (load_eager host model_file path ml p)).
Proof.
  unfold load_eager, load_state_dict. run; split; reflexivity.
Qed.

Lemma load_script_frame host path ml p :
  model_frame p (snd (load_script host path ml p)).
Proof.
  unfold load_script. run; split; reflexivity.
Qed.

Lemma place_and_eval_frame host p :
  model_frame p (snd (place_and_eval host p)).
Proof.
  unfold place_and_eval, model_to. run; split; reflexivity.
Qed.

Lemma model_frame_trans p1 p2 p3 :
  model_frame p1 p2 -> model_frame p2 p3 -> model_frame p1 p3.
Proof.
  intros [] []; split; etransitivity; eassumption.
Qed.

Lemma model_frame_refl p : model_frame p p.
Proof. split; reflexivity. Qed.

Lemma model_frame_logger lvl msg p : model_frame p (snd (logger lvl msg p)).
Proof. split; reflexivity. Qed.

Lemma frame_of_run {A} (R : Process -> Process -> Prop) (m : M A) p r p' :
  (forall q, R q (snd (m q))) -> m p = (r, p') -> R p p'.
Proof. intros F E. specialize (F p). rewrite E in F. exact F. Qed.

Lemma load_model_frame host dir ml p :
  model_frame p (snd (load_model host dir ml p)).
Proof.
  unfold load_model. run; try apply model_frame_refl.
  all: repeat match goal with
       | H : load_eager _ _ _ _ _ = _ |- _ =>
           apply (frame_of_run model_frame) in H; [| apply load_eager_frame]
       | H : load_script _ _ _ _ = _ |- _ =>
           apply (frame_of_run model_frame) in H; [| apply load_script_frame]
       | H : place_and_eval _ _ = _ |- _ =>
           apply (frame_of_run model_frame) in H; [| apply place_and_eval_frame]
       end.
  all: eauto using model_frame_trans.
  all: eapply model_frame_trans; [eapply model_frame_trans; eassumption |].
  all: split; reflexivity.
Qed.

Lemma load_mapping_frame host dir p :
  mapping_frame p (snd (load_mapping host dir p)).
Proof.
  unfold load_mapping. run; split; reflexivity.
Qed.

Lemma ipex_probe_frame host p :
  probe_frame p (snd (ipex_probe host p)).
Proof.
  unfold ipex_probe, enable_amp. run; split; reflexivity.
Qed.

Lemma after_probe_frame host p : probe_frame p (after_probe host p).
Proof.
  unfold after_probe. destruct (cuda_is_available host).
  - split; reflexivity.
  - apply ipex_probe_frame.
Qed.

(** ** [initialize], step by step *)

Lemma map_location_is_cpu host :
  String.eqb (map_location_of host) "cpu" = negb (cuda_is_available host).
Proof. unfold map_location_of. destruct (cuda_is_available host); reflexivity. Qed.

(** When [torch.device] rejects the device string, [initialize] stops there:
    only the manifest has been stored. *)
Lemma initialize_resolve_raise host ctx p e :
  torch_device (device_string host (system_properties ctx)) = Raise e ->
  initialize host ctx p = (Raise e, snd (set_manifest (ctx_manifest ctx) p)).
Proof.
  intros E. unfold initialize, resolve_device. run. reflexivity.
Qed.

(** Otherwise the probe runs (without accelerator), its outcome is dropped,
    and the rest of [initialize] goes on from the state it left. *)
Lemma initialize_resolve_ok host ctx p d0 :
  torch_device (device_string host (system_properties ctx)) = Ok d0 ->
  initialize host ctx p =
  (load_model host (model_dir (system_properties ctx)) (map_location_of host) ;;
   load_mapping host (model_dir (system_properties ctx)) ;;
   set_initialized true)
    (after_probe host (after_resolve ctx d0 p)).
Proof.
  intros E. unfold initialize, resolve_device, after_probe, after_resolve.
  rewrite map_location_is_cpu.
  unfold bind at 1. cbn [set_manifest bind get_self put_self].
  unfold bind at 1. unfold bind at 1. unfold lift at 1. rewrite E.
  unfold bind at 1.
  destruct (cuda_is_available host); reflexivity.
Qed.

Lemma prepare_resolve_ok host ctx p d0 :
  torch_device (device_string host (system_properties ctx)) = Ok d0 ->
  prepare host ctx p =
  load_model host (model_dir (system_properties ctx)) (map_location_of host)
    (after_probe host (after_resolve ctx d0 p)).
Proof.
  intros E. unfold prepare, resolve_device, after_probe, after_resolve.
  rewrite map_location_is_cpu.
  unfold bind at 1. cbn [set_manifest bind get_self put_self].
  unfold bind at 1. unfold bind at 1. unfold lift at 1. rewrite E.
  unfold bind at 1.
  destruct (cuda_is_available host); reflexivity.
Qed.

Lemma prepare_resolve_raise host ctx p e :
  torch_device (device_string host (system_properties ctx)) = Raise e ->
  prepare host ctx p = (Raise e, snd (set_manifest (ctx_manifest ctx) p)).
Proof.
  intros E. unfold prepare, resolve_device. run. reflexivity.
Qed.

(** [initialize] is [prepare], then the mapping, then the flag. *)
Lemma initialize_prepare host ctx p :
  initialize host ctx p =
  (prepare host ctx ;;
   load_mapping host (model_dir (system_properties ctx)) ;;
   set_initialized true) p.
Proof.
  destruct (torch_device (device_string host (system_properties ctx))) as [d0|e] eqn:E.
  - rewrite (initialize_resolve_ok _ _ _ _ E).
    unfold bind at 3. rewrite (prepare_resolve_ok _ _ _ _ E). reflexivity.
  - rewrite (initialize_resolve_raise _ _ _ _ E).
    unfold bind at 1. rewrite (prepare_resolve_raise _ _ _ _ E). reflexivity.
Qed.

Lemma after_probe_device host ctx d0 p :
  device (self (after_probe host (after_resolve ctx d0 p))) =
  Some (probed_device host d0).
Proof.
  unfold after_probe, probed_device.
  destruct (cuda_is_available host); [reflexivity |].
  unfold ipex_probe, enable_amp. run; reflexivity.
Qed.

(** ** Successful initialization (C5) *)

Lemma load_model_ok host dir ml p p' :
  load_model host dir ml p = (Ok tt, p') ->
  exists m d, model (self p') = Some m /\ device (self p') = Some d /\
              mh_training m = false /\ mh_device m = d.
Proof.
  unfold load_model. intros H. run.
  all: repeat match goal with u : unit |- _ => destruct u end.
  all: match goal with
       | H : place_and_eval _ _ = (Ok _, _) |- _ =>
           destruct (place_and_eval_ok _ _ _ H)
             as (m & d & Hm & Hd & Ht & Hr & _)
       end.
  all: exists m, d; cbn; auto.
Qed.

(** C5.  Whenever [initialize] succeeds, whichever branch loaded the model,
    the handler holds a model handle that is in evaluation mode and resident
    on the device the handler holds, that device is the one resolved for the
    context (as the acceleration probe left it), the flag [initialized] is
    set and the handler state is [Initialized]. *)
Theorem initialize_success_invariant host ctx p p' :
  initialize host ctx p = (Ok tt, p') ->
  exists m d d0,
    model (self p') = Some m /\ device (self p') = Some d /\
    mh_training m = false /\ mh_device m = d /\
    torch_device (device_string host (system_properties ctx)) = Ok d0 /\
    d = probed_device host d0 /\
    initialized (self p') = true /\
    state_after (initialize host ctx p) = Initialized.
Proof.
  intros H.
  destruct (torch_device (device_string host (system_properties ctx)))
    as [d0|e] eqn:E.
  2: { rewrite (initialize_resolve_raise _ _ _ _ E) in H. discriminate. }
  assert (Hst : initialized (self p') = true ->
                state_after (initialize host ctx p) = Initialized).
  { intros Hi. rewrite H. unfold state_after. cbn. rewrite Hi. reflexivity. }
  rewrite (initialize_resolve_ok _ _ _ _ E) in H.
  apply bind_inv_ok in H as ([] & p3 & Hload & H).
  apply bind_inv_ok in H as ([] & p4 & Hmap & H).
  destruct (load_model_ok _ _ _ _ _ Hload) as (m & d & Hm & Hd & Ht & Hr).
  pose proof (frame_of_run model_frame _ _ _ _ (load_model_frame _ _ _) Hload) as F3.
  pose proof (frame_of_run mapping_frame _ _ _ _ (load_mapping_frame _ _) Hmap) as F4.
  assert (Hd0 : d = probed_device host d0).
  { destruct F3 as [F3 _ _ _ _ _]. rewrite Hd, after_probe_device in F3. congruence. }
  assert (Hp' : self p' = mkHandler (model (self p4)) (mapping (self p4))
                             (device (self p4)) true (manifest (self p4))).
  { cbv in H. injection H as <-. reflexivity. }
  destruct F4 as [F4m F4d _ _ _ _].
  exists m, d, d0. rewrite Hp' in *. cbn [model device initialized] in *.
  rewrite F4m, F4d. repeat split; auto.
Qed.

(** C5 at a sample: a host without accelerator and with the acceleration
    library, the script branch. *)
Lemma initialize_success_invariant_witness :
  let host := Samples.host_of false Samples.ipex_ok Samples.lscpu_ht ["/m/model.pt"] [] in
  let ctx := Samples.context_of None None in
  let p := fresh_process ∅ in
  exists m d d0,
    model (self (snd (initialize host ctx p))) = Some m /\
    device (self (snd (initialize host ctx p))) = Some d /\
    mh_training m = false /\ mh_device m = d /\
    torch_device (device_string host (system_properties ctx)) = Ok d0 /\
    d = probed_device host d0 /\
    initialized (self (snd (initialize host ctx p))) = true /\
    state_after (initialize host ctx p) = Initialized.
Proof.
  intros host ctx p.
  apply (initialize_success_invariant host ctx p).
  vm_compute. reflexivity.
Defined.

(** ** The label mapping (C7, C8) *)

Lemma prepare_mapping host ctx p :
  mapping (self (snd (prepare host ctx p))) = mapping (self p).
Proof.
  destruct (torch_device (device_string host (system_properties ctx)))
    as [d0|e] eqn:E.
  - rewrite (prepare_resolve_ok _ _ _ _ E).
    rewrite (mf_mapping _ _ (load_model_frame _ _ _ _)).
    rewrite (bf_mapping _ _ (after_probe_frame _ _)). reflexivity.
  - rewrite (prepare_resolve_raise _ _ _ _ E). reflexivity.
Qed.

Lemma load_mapping_absent host dir path p :
  isfile host (Py.os_path_join dir "index_to_name.json") = false ->
  path = Py.os_path_join dir "index_to_name.json" ->
  load_mapping host (Some dir) p = logger WARNING missing_mapping_warning p.
Proof.
  intros Hf _. unfold load_mapping, path_join, bind, ret. rewrite Hf. reflexivity.
Qed.

Lemma load_mapping_present host dir j p :
  isfile host (Py.os_path_join dir "index_to_name.json") = true ->
  json_load host (Py.os_path_join dir "index_to_name.json") = Ok j ->
  load_mapping host (Some dir) p = set_mapping j p.
Proof.
  intros Hf Hj. unfold load_mapping, path_join, bind, ret, lift.
  rewrite Hf, Hj. reflexivity.
Qed.

(** C7.  When the model directory holds no [index_to_name.json],
    [initialize] fails exactly when the steps before the mapping fail, with
    their error: once the model is loaded it logs one warning, sets the flag
    and returns.  In either case [self.mapping] is what it was before the
    call, [None] for a handler that was just constructed. *)
Theorem initialize_without_mapping_file host ctx path p :
  mapping_path ctx = Some path ->
  isfile host path = false ->
  initialize host ctx p =
    match prepare host ctx p with
    | (Ok _, p1) =>
        (Ok tt, snd (set_initialized true
                       (snd (logger WARNING missing_mapping_warning p1))))
    | (Raise e, p1) => (Raise e, p1)
    end /\
  mapping (self (snd (initialize host ctx p))) = mapping (self p) /\
  (self p = new_handler -> mapping (self (snd (initialize host ctx p))) = None).
Proof.
  intros Hpath Hfile. unfold mapping_path in Hpath.
  destruct (model_dir (system_properties ctx)) as [dir|] eqn:Hdir; [| discriminate].
  injection Hpath as <-.
  assert (Heq : initialize host ctx p =
    match prepare host ctx p with
    | (Ok _, p1) =>
        (Ok tt, snd (set_initialized true
                       (snd (logger WARNING missing_mapping_warning p1))))
    | (Raise e, p1) => (Raise e, p1)
    end).
  { rewrite initialize_prepare. unfold bind at 1.
    destruct (prepare host ctx p) as [[[]|e] p1]; [| reflexivity].
    unfold bind at 1. rewrite Hdir.
    rewrite (load_mapping_absent _ _ _ _ Hfile eq_refl). reflexivity. }
  assert (Hmap : mapping (self (snd (initialize host ctx p))) = mapping (self p)).
  { rewrite Heq, <- (prepare_mapping host ctx p).
    destruct (prepare host ctx p) as [[[]|e] p1]; reflexivity. }
  repeat split; [exact Heq | exact Hmap |].
  intros Hnew. rewrite Hmap, Hnew. reflexivity.
Qed.

(** C7 at a sample: the script branch in a directory without mapping file. *)
Lemma initialize_without_mapping_file_witness :
  let host := Samples.host_of false Samples.no_ipex Samples.lscpu_ht ["/m/model.pt"] [] in
  let ctx := Samples.context_of None None in
  let p := fresh_process ∅ in
  fst (initialize host ctx p) = Ok tt /\
  mapping (self (snd (initialize host ctx p))) = None /\
  last (log (snd (initialize host ctx p))) = Some (WARNING, missing_mapping_warning).
Proof.
  intros host ctx p.
  destruct (initialize_without_mapping_file host ctx "/m/index_to_name.json" p
              eq_refl eq_refl) as (Heq & _ & Hnone).
  split; [rewrite Heq; reflexivity |].
  split; [apply Hnone; reflexivity | rewrite Heq; reflexivity].
Defined.

Lemma load_model_ok_dir host dir ml p p' :
  load_model host dir ml p = (Ok tt, p') -> exists d, dir = Some d.
Proof.
  unfold load_model. intros H. destruct dir as [d|]; [eauto |]. run.
Qed.

(** A mapping file that is there and parses is retained as it was read. *)
Lemma initialize_mapping_loaded host ctx path j p p' :
  mapping_path ctx = Some path ->
  isfile host path = true ->
  json_load host path = Ok j ->
  initialize host ctx p = (Ok tt, p') ->
  mapping (self p') = Some j.
Proof.
  intros Hpath Hfile Hjson H. unfold mapping_path in Hpath.
  destruct (model_dir (system_properties ctx)) as [dir|] eqn:Hdir; [| discriminate].
  injection Hpath as <-.
  rewrite initialize_prepare in H.
  apply bind_inv_ok in H as ([] & p1 & _ & H).
  apply bind_inv_ok in H as ([] & p2 & Hmap & H).
  rewrite Hdir, (load_mapping_present _ _ _ _ Hfile Hjson) in Hmap.
  cbv in Hmap. injection Hmap as <-.
  cbv in H. injection H as <-. reflexivity.
Qed.

(** C8, as the code has it.  With an [index_to_name.json] in the model
    directory that reads as the object with members "0": "cat" and
    "1": "dog", a successful [initialize] retains that object as it was read:
    the mapping gives "cat" under the string key "0" and "dog" under the
    string key "1", and it gives nothing under an integer key, no key being
    converted. *)
Theorem initialize_label_mapping_lookup host ctx path p p' :
  mapping_path ctx = Some path ->
  isfile host path = true ->
  json_load host path = Ok (JObj [("0", JStr "cat"); ("1", JStr "dog")]) ->
  initialize host ctx p = (Ok tt, p') ->
  mapping (self p') = Some (JObj [("0", JStr "cat"); ("1", JStr "dog")]) /\
  exists labels,
    mapping (self p') = Some labels /\
    mapping_get (KStr "0") labels = Some (JStr "cat") /\
    mapping_get (KStr "1") labels = Some (JStr "dog") /\
    (forall i : Z, mapping_get (KInt i) labels = None).
Proof.
  intros Hpath Hfile Hjson H.
  pose proof (initialize_mapping_loaded _ _ _ _ _ _ Hpath Hfile Hjson H) as Hm.
  split; [exact Hm |].
  eexists. split; [exact Hm |]. repeat split.
Qed.

(** C8 at a sample: the eager branch, with the mapping file in place. *)
Lemma initialize_label_mapping_lookup_witness :
  let host := Samples.host_of false Samples.no_ipex Samples.lscpu_ht
                ["/m/model.pt"; "/m/model.py"; "/m/index_to_name.json"] [Samples.Net] in
  let ctx := Samples.context_of None (Some "model.py") in
  let p := fresh_process ∅ in
  exists labels,
    mapping (self (snd (initialize host ctx p))) = Some labels /\
    mapping_get (KStr "0") labels = Some (JStr "cat") /\
    mapping_get (KStr "1") labels = Some (JStr "dog") /\
    (forall i : Z, mapping_get (KInt i) labels = None).
Proof.
  intros host ctx p.
  apply (initialize_label_mapping_lookup host ctx "/m/index_to_name.json" p);
    vm_compute; reflexivity.
Defined.

(** C8 as stated fails when the index is the integer: after a successful
    [initialize] with that mapping file, looking up the integers 0 and 1 finds
    nothing, the keys of the mapping being the strings "0" and "1". *)
Lemma label_mapping_has_no_integer_key :
  let host := Samples.host_of false Samples.no_ipex Samples.lscpu_ht
                ["/m/model.pt"; "/m/index_to_name.json"] [] in
  let ctx := Samples.context_of None None in
  let out := initialize host ctx (fresh_process ∅) in
  json_load host "/m/index_to_name.json"
  = Ok (JObj [("0", JStr "cat"); ("1", JStr "dog")]) /\
  fst out = Ok tt /\
  mapping (self (snd out)) = Some (JObj [("0", JStr "cat"); ("1", JStr "dog")]) /\
  mapping_get (KInt 0) (JObj [("0", JStr "cat"); ("1", JStr "dog")]) = None /\
  mapping_get (KInt 1) (JObj [("0", JStr "cat"); ("1", JStr "dog")]) = None /\
  mapping_get (KInt 0) (JObj [("0", JStr "cat"); ("1", JStr "dog")]) <> Some (JStr "cat").
Proof.
  cbv zeta. repeat split; try reflexivity. discriminate.
Qed.

(** ** A missing artifact (C1, C10) *)

Lemma load_model_missing host ctx path ml p :
  artifact_path ctx = Some path ->
  isfile host path = false ->
  manifest (self p) = Some (ctx_manifest ctx) ->
  load_model host (model_dir (system_properties ctx)) ml p = (Raise missing_artifact, p).
Proof.
  unfold artifact_path, load_model. intros Hpath Hfile Hman.
  destruct (model_dir (system_properties ctx)) as [dir|]; [| discriminate].
  destruct (manifest_model (ctx_manifest ctx)) as [section|] eqn:Hs; [| discriminate].
  destruct (serializedFile section) as [file|] eqn:Hf; [| discriminate].
  injection Hpath as <-.
  unfold bind, get_self, subscriptable, getitem, path_join, ret, raise.
  rewrite Hman, Hs, Hf, Hfile. reflexivity.
Qed.

(** What a call of [initialize] without the artifact comes to. *)
Lemma initialize_missing_run host ctx path p :
  artifact_path ctx = Some path ->
  isfile host path = false ->
  initialize host ctx p =
    match torch_device (device_string host (system_properties ctx)) with
    | Ok d => (Raise missing_artifact, after_probe host (after_resolve ctx d p))
    | Raise e => (Raise e, snd (set_manifest (ctx_manifest ctx) p))
    end.
Proof.
  intros Hpath Hfile.
  destruct (torch_device (device_string host (system_properties ctx)))
    as [d0|e] eqn:E.
  - rewrite (initialize_resolve_ok _ _ _ _ E).
    apply bind_raise, (load_model_missing _ _ _ _ _ Hpath Hfile).
    rewrite (bf_manifest _ _ (after_probe_frame _ _)). reflexivity.
  - apply (initialize_resolve_raise _ _ _ _ E).
Qed.

(** C1, as the code has it.  When the joined path of the artifact is not a
    regular file, [initialize] raises, never sets [initialized], and leaves a
    handler that was not initialized in state [Failed].  The error is the
    missing-artifact error whenever the device was resolved: device
    resolution comes first, and a device string [torch.device] rejects raises
    before the artifact is looked for. *)
Theorem initialize_missing_artifact host ctx path p :
  artifact_path ctx = Some path ->
  isfile host path = false ->
  exists e p',
    initialize host ctx p = (Raise e, p') /\
    initialized (self p') = initialized (self p) /\
    (initialized (self p) = false ->
     state_after (initialize host ctx p) = Failed) /\
    (forall d0,
        torch_device (device_string host (system_properties ctx)) = Ok d0 ->
        e = missing_artifact).
Proof.
  intros Hpath Hfile.
  rewrite (initialize_missing_run _ _ _ _ Hpath Hfile).
  destruct (torch_device (device_string host (system_properties ctx)))
    as [d0|e] eqn:E.
  - exists missing_artifact, (after_probe host (after_resolve ctx d0 p)).
    assert (Hi : initialized (self (after_probe host (after_resolve ctx d0 p)))
                 = initialized (self p)).
    { rewrite (bf_initialized _ _ (after_probe_frame _ _)). reflexivity. }
    repeat split; auto.
    intros Hf. unfold state_after. cbn [fst snd]. rewrite Hi, Hf. reflexivity.
  - exists e, (snd (set_manifest (ctx_manifest ctx) p)).
    repeat split; auto; [| discriminate].
    intros Hf. unfold state_after. cbn. rewrite Hf. reflexivity.
Qed.

(** C1 at a sample: no accelerator, the artifact is not there. *)
Lemma initialize_missing_artifact_witness :
  let host := Samples.host_of false Samples.ipex_ok Samples.lscpu_ht [] [] in
  let ctx := Samples.context_of None None in
  let p := fresh_process ∅ in
  exists e p',
    initialize host ctx p = (Raise e, p') /\
    initialized (self p') = initialized (self p) /\
    (initialized (self p) = false ->
     state_after (initialize host ctx p) = Failed) /\
    (forall d0,
        torch_device (device_string host (system_properties ctx)) = Ok d0 ->
        e = missing_artifact).
Proof.
  intros host ctx p.
  apply (initialize_missing_artifact host ctx "/m/model.pt" p); reflexivity.
Defined.

(** C1 as stated fails on a host with an accelerator when the context has
    no [gpu_id], or one that is not a device index: the artifact is missing,
    and the error raised is that of [torch.device], not the missing-artifact
    error. *)
Lemma initialize_missing_artifact_device_error_first :
  let host := Samples.host_of true Samples.no_ipex Samples.lscpu_ht [] [] in
  let p := fresh_process ∅ in
  (artifact_path (Samples.context_of None None) = Some "/m/model.pt" /\
   isfile host "/m/model.pt" = false /\
   fst (initialize host (Samples.context_of None None) p)
   = Raise (RuntimeError "Invalid device string: 'cuda:None'") /\
   fst (initialize host (Samples.context_of None None) p) <> Raise missing_artifact) /\
  (artifact_path (Samples.context_of (Some (-1)%Z) None) = Some "/m/model.pt" /\
   fst (initialize host (Samples.context_of (Some (-1)%Z) None) p)
   = Raise (RuntimeError "Invalid device string: 'cuda:-1'") /\
   fst (initialize host (Samples.context_of (Some (-1)%Z) None) p) <> Raise missing_artifact).
Proof.
  cbv zeta. repeat split; try reflexivity; vm_compute; discriminate.
Qed.

(** C10, as the code has it.  A call of [initialize] without the artifact
    raises after it has stored the manifest and, when [torch.device] accepted
    the device string, the device (the one the probe left); the model, the
    mapping and the flag are what they were, so the flag of a handler that
    was just constructed is still [false].  When [torch.device] rejects the
    device string, the call raises with the device field not yet written. *)
Theorem initialize_not_atomic host ctx path p :
  artifact_path ctx = Some path ->
  isfile host path = false ->
  exists e p',
    initialize host ctx p = (Raise e, p') /\
    manifest (self p') = Some (ctx_manifest ctx) /\
    (forall d0,
        torch_device (device_string host (system_properties ctx)) = Ok d0 ->
        device (self p') = Some (probed_device host d0)) /\
    (forall e0,
        torch_device (device_string host (system_properties ctx)) = Raise e0 ->
        device (self p') = device (self p)) /\
    model (self p') = model (self p) /\
    mapping (self p') = mapping (self p) /\
    initialized (self p') = initialized (self p) /\
    (self p = new_handler -> initialized (self p') = false).
Proof.
  intros Hpath Hfile.
  rewrite (initialize_missing_run _ _ _ _ Hpath Hfile).
  destruct (torch_device (device_string host (system_properties ctx)))
    as [d0|e] eqn:E.
  - exists missing_artifact, (after_probe host (after_resolve ctx d0 p)).
    destruct (after_probe_frame host (after_resolve ctx d0 p))
      as [Hm Hmap Hi Hman _].
    rewrite Hm, Hmap, Hi, Hman, after_probe_device.
    repeat split; try reflexivity.
    + intros d1 [= <-]. reflexivity.
    + discriminate.
    + intros Hn. cbn. rewrite Hn. reflexivity.
  - exists e, (snd (set_manifest (ctx_manifest ctx) p)).
    repeat split; try reflexivity; [discriminate |].
    intros Hn. cbn. rewrite Hn. reflexivity.
Qed.

(** C10 at a sample: without accelerator and with the acceleration library,
    the failed handler holds the manifest and the device of the library. *)
Lemma initialize_not_atomic_witness :
  let host := Samples.host_of false Samples.ipex_ok Samples.lscpu_ht [] [] in
  let ctx := Samples.context_of None None in
  let p := fresh_process ∅ in
  fst (initialize host ctx p) = Raise missing_artifact /\
  manifest (self (snd (initialize host ctx p))) = Some (ctx_manifest ctx) /\
  device (self (snd (initialize host ctx p))) = Some (mkDevice "dpcpp" None) /\
  initialized (self (snd (initialize host ctx p))) = false.
Proof.
  intros host ctx p.
  destruct (initialize_not_atomic host ctx "/m/model.pt" p eq_refl eq_refl)
    as (e & p' & Hrun & Hman & Hdev & _ & _ & _ & _ & Hflag).
  rewrite Hrun. cbn [fst snd].
  specialize (Hdev cpu eq_refl). specialize (Hflag eq_refl).
  assert (He : e = missing_artifact).
  { vm_compute in Hrun. injection Hrun as <- _. reflexivity. }
  rewrite He. repeat split; assumption.
Defined.

(** C10 as stated fails on a host with an accelerator when the context has
    no [gpu_id], or one that is not a device index: the artifact is missing,
    the call raises, the manifest is stored and the device field has not been
    assigned. *)
Lemma initialize_fails_before_device_assigned :
  let host := Samples.host_of true Samples.no_ipex Samples.lscpu_ht [] [] in
  let p := fresh_process ∅ in
  (let ctx := Samples.context_of None None in
   artifact_path ctx = Some "/m/model.pt" /\
   isfile host "/m/model.pt" = false /\
   is_ok (fst (initialize host ctx p)) = false /\
   manifest (self (snd (initialize host ctx p))) = Some (ctx_manifest ctx) /\
   device (self (snd (initialize host ctx p))) = None) /\
  (let ctx := Samples.context_of (Some (-1)%Z) None in
   artifact_path ctx = Some "/m/model.pt" /\
   is_ok (fst (initialize host ctx p)) = false /\
   manifest (self (snd (initialize host ctx p))) = Some (ctx_manifest ctx) /\
   device (self (snd (initialize host ctx p))) = None).
Proof.
  cbv zeta. repeat split; reflexivity.
Qed.

(** ** The model definition file (C2) *)

Lemma not_singleton {A} (l : list A) (T : Type) (one : A -> T) (other : T) :
  length l <> 1 ->
  match l with [x] => one x | _ => other end = other.
Proof. destruct l as [|x [|y l]]; cbn; congruence. Qed.

Section ModelDefinition.
Variables (host : Host) (ctx : Context) (path def_path : string).
Variables (module : PyModule) (d0 : Device).
Hypothesis Hartifact : artifact_path ctx = Some path.
Hypothesis Hartifact_file : isfile host path = true.
Hypothesis Hdef : model_def_path ctx = Some def_path.
Hypothesis Hdef_file : isfile host def_path = true.
Hypothesis Hresolve :
  torch_device (device_string host (system_properties ctx)) = Ok d0.
Hypothesis Himport :
  import_module host (Py.split_first "." (model_file_of ctx)) = Ok module.

(** With both files in place, loading the model is the eager branch. *)
Lemma load_model_eager p :
  manifest (self p) = Some (ctx_manifest ctx) ->
  load_model host (model_dir (system_properties ctx)) (map_location_of host) p =
  ((load_eager host (model_file_of ctx) path (map_location_of host) ;;
    place_and_eval host ;;
    logger DEBUG ("Model file " +:+ path +:+ " loaded successfully")) p).
Proof.
  intros Hman. clear Hresolve Himport.
  unfold artifact_path, model_def_path, model_file_of, load_model in *.
  destruct (model_dir (system_properties ctx)) as [dir|]; [| discriminate].
  destruct (manifest_model (ctx_manifest ctx)) as [section|] eqn:Hs; [| discriminate].
  destruct (serializedFile section) as [file|] eqn:Hf; [| discriminate].
  injection Hartifact as <-. injection Hdef as <-.
  unfold bind at 1, get_self. unfold bind at 1, subscriptable. rewrite Hman.
  unfold ret at 1. unfold bind at 1, getitem. rewrite Hs.
  unfold ret at 1. unfold bind at 1. rewrite Hf.
  unfold ret at 1. unfold bind at 1, path_join.
  unfold ret at 1. rewrite Hartifact_file. cbn [negb].
  unfold bind at 1. unfold ret at 1. rewrite Hdef_file. reflexivity.
Qed.

Lemma load_eager_ambiguous p :
  length (list_classes_from_module module) <> 1 ->
  load_eager host (model_file_of ctx) path (map_location_of host) p =
  (Raise (ambiguous_model_definition (list_classes_from_module module)), p).
Proof.
  intros Hlen. unfold load_eager, bind, lift. rewrite Himport.
  rewrite (not_singleton _ _ _ _ Hlen). reflexivity.
Qed.

Lemma load_eager_single p c sd m0 m1 :
  list_classes_from_module module = [c] ->
  torch_load host path (map_location_of host) = Ok sd ->
  cls_call c = Ok m0 ->
  load_state_dict m0 sd = Ok m1 ->
  load_eager host (model_file_of ctx) path (map_location_of host) p =
  (Ok tt, snd (set_model m1 p)).
Proof.
  intros Hone Hload Hcall Hsd. unfold load_eager, bind, lift.
  rewrite Himport, Hone, Hload, Hcall. cbn. rewrite Hsd. reflexivity.
Qed.

(** C2, as the code has it.  The device being resolved, the artifact and
    the model definition file being there and the module importing:
    with exactly one class defined in the module, [initialize] instantiates
    it and loads the state dict of the artifact onto the instance, and it
    succeeds when reading the artifact, calling the class, loading the state
    dict, moving the model to the device and reading a mapping file that is
    there raise nothing; with no such class, or two or more, it raises the
    ambiguous-definition error whose message lists the classes found, and
    does not set the flag. *)
Theorem initialize_model_definition p :
  (forall c sd m0 m1,
      list_classes_from_module module = [c] ->
      torch_load host path (map_location_of host) = Ok sd ->
      cls_call c = Ok m0 ->
      load_state_dict m0 sd = Ok m1 ->
      device_ready host (probed_device host d0) = true ->
      (forall mp, mapping_path ctx = Some mp -> isfile host mp = true ->
                  is_ok (json_load host mp) = true) ->
      exists p' m,
        initialize host ctx p = (Ok tt, p') /\
        model (self p') = Some m /\
        mh_class m = mh_class m0 /\ mh_state m = sd /\
        mh_training m = false /\ mh_device m = probed_device host d0 /\
        initialized (self p') = true) /\
  (length (list_classes_from_module module) <> 1 ->
   exists p',
     initialize host ctx p =
       (Raise (ambiguous_model_definition (list_classes_from_module module)), p') /\
     initialized (self p') = initialized (self p)).
Proof.
  pose (p2 := after_probe host (after_resolve ctx d0 p)).
  assert (Hman : manifest (self p2) = Some (ctx_manifest ctx)).
  { unfold p2. rewrite (bf_manifest _ _ (after_probe_frame _ _)). reflexivity. }
  assert (Hdev : device (self p2) = Some (probed_device host d0)).
  { apply after_probe_device. }
  assert (Hini : initialized (self p2) = initialized (self p)).
  { unfold p2. rewrite (bf_initialized _ _ (after_probe_frame _ _)). reflexivity. }
  rewrite (initialize_resolve_ok _ _ _ _ Hresolve). fold p2.
  split.
  - intros c sd m0 m1 Hone Hload Hcall Hsd Hready Hjson.
    unfold bind at 1. rewrite (load_model_eager _ Hman).
    unfold bind at 1. rewrite (load_eager_single _ _ _ _ _ Hone Hload Hcall Hsd).
    unfold bind at 1, place_and_eval. unfold bind at 1, get_self.
    cbn [set_model bind get_self put_self snd self model device].
    rewrite Hdev. unfold model_to, lift. rewrite Hready.
    cbn [bind ret set_model get_self put_self logger snd fst self model device
         mapping initialized manifest environ amp_enabled log].
    unfold bind at 1, load_mapping.
    unfold load_state_dict in Hsd.
    destruct (mh_accepts m0 sd); [| discriminate]. injection Hsd as <-.
    unfold mapping_path in Hjson.
    assert (Hdir : exists dir, model_dir (system_properties ctx) = Some dir).
    { unfold artifact_path in Hartifact.
      destruct (model_dir (system_properties ctx)); [eauto | discriminate]. }
    destruct Hdir as [dir Hdir]. rewrite Hdir in *.
    unfold bind at 1, path_join, ret at 1.
    destruct (isfile host (Py.os_path_join dir "index_to_name.json")) eqn:Hmf.
    + specialize (Hjson _ eq_refl Hmf).
      unfold bind, lift.
      destruct (json_load host (Py.os_path_join dir "index_to_name.json"));
        [| discriminate].
      eexists _, _. cbn. repeat split; reflexivity.
    + eexists _, _. cbn. repeat split; reflexivity.
  - intros Hlen.
    exists p2. split; [| exact Hini].
    apply bind_raise. rewrite (load_model_eager _ Hman).
    apply bind_raise, load_eager_ambiguous, Hlen.
Qed.

End ModelDefinition.

(** C2 at samples: the module defines [Net] alone (and imports another
    class), then the module defines [Net] and [Other]. *)
Lemma initialize_model_definition_witness :
  let files := ["/m/model.pt"; "/m/model.py"; "/m/index_to_name.json"] in
  let ctx := Samples.context_of None (Some "model.py") in
  let p := fresh_process ∅ in
  (exists p' m,
      initialize (Samples.host_of false Samples.no_ipex Samples.lscpu_ht files
                    [Samples.Net; Samples.Imported]) ctx p = (Ok tt, p') /\
      model (self p') = Some m /\
      mh_class m = "Net" /\ mh_state m = [("fc.weight", [3; 4]%Z)] /\
      mh_training m = false /\ mh_device m = cpu /\
      initialized (self p') = true) /\
  (exists p',
      initialize (Samples.host_of false Samples.no_ipex Samples.lscpu_ht files
                    [Samples.Net; Samples.Other]) ctx p =
      (Raise (ValueError
                "Expected only one class as model definition. [<class 'model.Net'>, <class 'model.Other'>]"),
       p') /\
      initialized (self p') = false).
Proof.
  intros files ctx p. split.
  - refine (proj1 (initialize_model_definition
                     (Samples.host_of false Samples.no_ipex Samples.lscpu_ht files
                        [Samples.Net; Samples.Imported])
                     ctx "/m/model.pt" "/m/model.py"
                     (Samples.module_of [Samples.Net; Samples.Imported]) cpu
                     eq_refl eq_refl eq_refl eq_refl eq_refl eq_refl p)
                  Samples.Net [("fc.weight", [3; 4]%Z)] _ _
                  eq_refl eq_refl eq_refl eq_refl eq_refl _).
    intros mp [= <-] _. reflexivity.
  - refine (proj2 (initialize_model_definition
                     (Samples.host_of false Samples.no_ipex Samples.lscpu_ht files
                        [Samples.Net; Samples.Other])
                     ctx "/m/model.pt" "/m/model.py"
                     (Samples.module_of [Samples.Net; Samples.Other]) cpu
                     eq_refl eq_refl eq_refl eq_refl eq_refl eq_refl p) _).
    cbn. lia.
Defined.

(** C2 as stated fails when the model definition file is there and the
    artifact is not: the module defines no class, and the error is the
    missing-artifact error, raised before the module is looked at.  And with
    exactly one class in the module, [initialize] still fails when the state
    dict of the artifact does not fit the class. *)
Lemma initialize_model_definition_needs_artifact :
  let ctx := Samples.context_of None (Some "model.py") in
  let p := fresh_process ∅ in
  (let host := Samples.host_of false Samples.no_ipex Samples.lscpu_ht ["/m/model.py"] [] in
   model_def_path ctx = Some "/m/model.py" /\
   isfile host "/m/model.py" = true /\
   list_classes_from_module (Samples.module_of []) = [] /\
   fst (initialize host ctx p) = Raise missing_artifact /\
   fst (initialize host ctx p) <> Raise (ambiguous_model_definition [])) /\
  (let host := Samples.host_of false Samples.no_ipex Samples.lscpu_ht
                 ["/m/model.pt"; "/m/model.py"] [Samples.Wide] in
   isfile host "/m/model.py" = true /\
   list_classes_from_module (Samples.module_of [Samples.Wide]) = [Samples.Wide] /\
   is_ok (fst (initialize host ctx p)) = false /\
   initialized (self (snd (initialize host ctx p))) = false).
Proof.
  cbv zeta. repeat split; try reflexivity. vm_compute. discriminate.
Qed.

(** ** Device resolution (C3) *)

Lemma index_numeral_str_int (n : Z) :
  (0 <= n)%Z -> index_numeral (Py.str_int n) = Some (Z.to_N n).
Proof.
  intros Hn. destruct n as [|q|q]; [reflexivity | | lia].
  unfold index_numeral, Py.str_int. cbn [Z.to_int NilZero.string_of_int].
  rewrite NilZero.usu by apply DecimalPos.Unsigned.to_uint_nonnil.
  assert (Hnorm : Decimal.unorm (Pos.to_uint q) = Pos.to_uint q).
  { rewrite <- DecimalN.Unsigned.to_of.
    change (Pos.to_uint q) with (N.to_uint (N.pos q)) at 1.
    rewrite DecimalN.Unsigned.of_to. reflexivity. }
  rewrite Hnorm, String.eqb_refl.
  change (Pos.to_uint q) with (N.to_uint (N.pos q)).
  rewrite DecimalN.Unsigned.of_to. reflexivity.
Qed.

Lemma to_device_index_small (n : Z) :
  (0 <= n <= 127)%Z -> to_device_index n = n.
Proof.
  intros Hn. unfold to_device_index.
  rewrite Z.mod_small by lia. lia.
Qed.

(** The device string of a host with an accelerator, [gpu_id] being [n]. *)
Lemma torch_device_cuda (n : Z) :
  torch_device ("cuda" +:+ ":" +:+ Py.str_int n) =
  match parse_index ("cuda" +:+ ":" +:+ Py.str_int n) (Py.str_int n) with
  | Ok i => Ok (cuda i)
  | Raise e => Raise e
  end.
Proof.
  unfold torch_device.
  change (String.eqb ("cuda" +:+ ":" +:+ Py.str_int n) EmptyString) with false.
  change (Py.split_first ":" ("cuda" +:+ ":" +:+ Py.str_int n)) with "cuda".
  change (Py.after_first ":" ("cuda" +:+ ":" +:+ Py.str_int n))
    with (Some (Py.str_int n)).
  change (device_type_ok "cuda") with true. cbn iota. reflexivity.
Qed.

(** Without accelerator the device resolved is the general-purpose
    processor, whatever the context says. *)
Lemma resolve_device_no_accelerator host properties :
  cuda_is_available host = false ->
  torch_device (device_string host properties) = Ok cpu.
Proof.
  intros H. unfold device_string, map_location_of. rewrite H. reflexivity.
Qed.

(** With an accelerator and a [gpu_id] from 0 to the largest [int], the
    device resolved is the accelerator whose index is [gpu_id] narrowed to
    eight bits. *)
Lemma resolve_device_accelerator_int host properties (n : Z) :
  cuda_is_available host = true ->
  gpu_id properties = Some n ->
  (0 <= n <= INT_MAX)%Z ->
  torch_device (device_string host properties) = Ok (cuda (to_device_index n)).
Proof.
  intros H Hg Hn. unfold device_string, map_location_of. rewrite H, Hg.
  unfold Py.str_opt_int. rewrite torch_device_cuda.
  unfold parse_index. rewrite (index_numeral_str_int n) by lia.
  rewrite Z2N.id by lia.
  destruct (Z.leb_spec n INT_MAX) as [_ | Hbig]; [reflexivity | lia].
Qed.

(** With an accelerator and a [gpu_id] from 0 to 127, the device resolved is
    the accelerator of that index. *)
Lemma resolve_device_accelerator host properties (n : Z) :
  cuda_is_available host = true ->
  gpu_id properties = Some n ->
  (0 <= n <= 127)%Z ->
  torch_device (device_string host properties) = Ok (cuda n).
Proof.
  intros H Hg Hn.
  rewrite (resolve_device_accelerator_int _ _ n H Hg) by (unfold INT_MAX; lia).
  rewrite (to_device_index_small _ Hn). reflexivity.
Qed.

(** With an accelerator and no [gpu_id], the device string is "cuda:None"
    and [torch.device] rejects it: no default index is put in. *)
Lemma resolve_device_accelerator_no_gpu_id host properties :
  cuda_is_available host = true ->
  gpu_id properties = None ->
  device_string host properties = "cuda:None" /\
  torch_device (device_string host properties)
  = Raise (RuntimeError "Invalid device string: 'cuda:None'").
Proof.
  intros H Hg. unfold device_string, map_location_of. rewrite H, Hg.
  split; reflexivity.
Qed.

Lemma run_frame {A B X} (f : Process -> X) (m : M A) (k : A -> M B) p :
  (forall q, f (snd (m q)) = f q) ->
  (forall a q, f (snd (k a q)) = f q) ->
  f (snd (bind m k p)) = f p.
Proof.
  intros Hm Hk. unfold bind. specialize (Hm p).
  destruct (m p) as [[a|e] p1]; cbn [snd] in *; [rewrite Hk |]; exact Hm.
Qed.

(** The device the handler holds after a call of [initialize], whether the
    call succeeded or not. *)
Lemma device_after_initialize host ctx p :
  device (self (snd (initialize host ctx p))) =
  match torch_device (device_string host (system_properties ctx)) with
  | Ok d => Some (probed_device host d)
  | Raise _ => device (self p)
  end.
Proof.
  destruct (torch_device (device_string host (system_properties ctx)))
    as [d0|e] eqn:E.
  - rewrite (initialize_resolve_ok _ _ _ _ E), <- after_probe_device with (ctx := ctx) (p := p).
    apply (run_frame (fun q => device (self q))).
    + intros q. apply (mf_device _ _ (load_model_frame _ _ _ _)).
    + intros _ q. apply (run_frame (fun q => device (self q))).
      * intros q'. apply (pf_device _ _ (load_mapping_frame _ _ _)).
      * reflexivity.
  - rewrite (initialize_resolve_raise _ _ _ _ E). reflexivity.
Qed.

(** Calling [initialize] again with the same context leaves the device the
    first call left. *)
Lemma initialize_device_idempotent host ctx p :
  let p1 := snd (initialize host ctx p) in
  device (self (snd (initialize host ctx p1))) = device (self p1).
Proof.
  cbv zeta. rewrite !device_after_initialize.
  destruct (torch_device (device_string host (system_properties ctx)));
    reflexivity.
Qed.

(** The parts of device resolution that hold on the code.  Without
    accelerator, device resolution stores the general-purpose processor, and
    after [initialize] the handler holds it unless the acceleration probe put
    the device of the library in its place; with an accelerator and a
    [gpu_id] from 0 to 127, device resolution stores the accelerator of that
    index and the handler keeps it; and a second call of [initialize] with
    the same context leaves the handler with the device the first call
    left. *)
Lemma device_resolution host ctx p :
  (cuda_is_available host = false ->
   (exists p', resolve_device host (system_properties ctx) p = (Ok tt, p') /\
               device (self p') = Some cpu) /\
   device (self (snd (initialize host ctx p))) = Some (probed_device host cpu) /\
   (forall e, intel_pytorch_extension host = Raise e ->
              device (self (snd (initialize host ctx p))) = Some cpu)) /\
  (forall n : Z,
      cuda_is_available host = true ->
      gpu_id (system_properties ctx) = Some n ->
      (0 <= n <= 127)%Z ->
      exists p', resolve_device host (system_properties ctx) p = (Ok tt, p') /\
                 device (self p') = Some (cuda n) /\
                 device (self (snd (initialize host ctx p))) = Some (cuda n)) /\
  (let p1 := snd (initialize host ctx p) in
   device (self (snd (initialize host ctx p1))) = device (self p1)).
Proof.
  split; [| split].
  - intros H. rewrite device_after_initialize.
    unfold resolve_device, bind, lift.
    rewrite (resolve_device_no_accelerator _ _ H).
    split; [eexists; split; reflexivity |]. split; [reflexivity |].
    intros e He. unfold probed_device. rewrite H, He. reflexivity.
  - intros n H Hg Hn. unfold resolve_device, bind, lift.
    rewrite device_after_initialize.
    rewrite (resolve_device_accelerator _ _ _ H Hg Hn).
    eexists. repeat split; try reflexivity.
    unfold probed_device. rewrite H. reflexivity.
  - apply initialize_device_idempotent.
Qed.

(** C3 at the failing input: a host with an accelerator and a context
    without [gpu_id].  The device string is "cuda:None"; [torch.device]
    rejects it, [initialize] raises that error and the handler has no device,
    where the claim has the accelerator with a default index. *)
Theorem initialize_accelerator_without_gpu_id :
  let host := Samples.host_of true Samples.no_ipex Samples.lscpu_ht ["/m/model.pt"] [] in
  let ctx := Samples.context_of None None in
  let p := fresh_process ∅ in
  cuda_is_available host = true /\
  gpu_id (system_properties ctx) = None /\
  isfile host "/m/model.pt" = true /\
  device_string host (system_properties ctx) = "cuda:None" /\
  fst (initialize host ctx p)
  = Raise (RuntimeError "Invalid device string: 'cuda:None'") /\
  device (self (snd (initialize host ctx p))) = None /\
  initialized (self (snd (initialize host ctx p))) = false.
Proof.
  cbv zeta.
  destruct (resolve_device_accelerator_no_gpu_id
              (Samples.host_of true Samples.no_ipex Samples.lscpu_ht ["/m/model.pt"] [])
              (system_properties (Samples.context_of None None)) eq_refl eq_refl)
    as [Hs Hr].
  rewrite (initialize_resolve_raise _ _ _ _ Hr).
  repeat split; reflexivity.
Qed.

(** ** The acceleration probe (C4, C9) *)

(** What follows the probe writes neither the environment nor the
    mixed-precision switch. *)
Lemma after_probe_settings host ctx q :
  let rest := (load_model host (model_dir (system_properties ctx)) (map_location_of host) ;;
               load_mapping host (model_dir (system_properties ctx)) ;;
               set_initialized true) in
  environ (snd (rest q)) = environ q /\ amp_enabled (snd (rest q)) = amp_enabled q.
Proof.
  cbv zeta. split.
  - apply (run_frame environ).
    + intros q'. apply (mf_environ _ _ (load_model_frame _ _ _ _)).
    + intros _ q'. apply (run_frame environ).
      * intros q''. apply (pf_environ _ _ (load_mapping_frame _ _ _)).
      * reflexivity.
  - apply (run_frame amp_enabled).
    + intros q'. apply (mf_amp _ _ (load_model_frame _ _ _ _)).
    + intros _ q'. apply (run_frame amp_enabled).
      * intros q''. apply (pf_amp _ _ (load_mapping_frame _ _ _)).
      * reflexivity.
Qed.

(** Without accelerator, [initialize] goes on from the state the probe left,
    whatever the probe returned or raised. *)
Lemma initialize_after_probe host ctx p :
  cuda_is_available host = false ->
  initialize host ctx p =
  (load_model host (model_dir (system_properties ctx)) (map_location_of host) ;;
   load_mapping host (model_dir (system_properties ctx)) ;;
   set_initialized true)
    (snd (ipex_probe host (after_resolve ctx cpu p))).
Proof.
  intros H.
  rewrite (initialize_resolve_ok host ctx p cpu)
    by apply (resolve_device_no_accelerator _ _ H).
  unfold after_probe. rewrite H. reflexivity.
Qed.

Lemma ipex_probe_absent host p e :
  intel_pytorch_extension host = Raise e -> ipex_probe host p = (Raise e, p).
Proof. intros H. unfold ipex_probe, bind, lift. rewrite H. reflexivity. Qed.

Lemma ipex_probe_no_device host p ipex e :
  intel_pytorch_extension host = Ok ipex ->
  torch_device (DEVICE ipex) = Raise e ->
  ipex_probe host p = (Raise e, p).
Proof. intros H Hd. unfold ipex_probe, bind, lift. rewrite H, Hd. reflexivity. Qed.

Lemma ipex_probe_switches host p ipex d :
  intel_pytorch_extension host = Ok ipex ->
  torch_device (DEVICE ipex) = Ok d ->
  device (self (snd (ipex_probe host p))) = Some d.
Proof.
  intros H Hd. unfold ipex_probe, enable_amp.
  unfold bind at 1, lift at 1. rewrite H.
  unfold bind at 1, lift at 1. rewrite Hd.
  run; reflexivity.
Qed.

(** C4, as the code has it.  On a host without accelerator the outcome of
    the probe is dropped: [initialize] goes on from the state the probe left,
    so no failure of the probe is a failure of [initialize].  The probe
    leaves the process as it was, device included, when the library cannot
    be imported or its device cannot be built; once the device of the library
    is built the handler holds it, whatever fails afterwards. *)
Theorem ipex_probe_best_effort host ctx p :
  (cuda_is_available host = false ->
   initialize host ctx p =
   (load_model host (model_dir (system_properties ctx)) (map_location_of host) ;;
    load_mapping host (model_dir (system_properties ctx)) ;;
    set_initialized true)
     (snd (ipex_probe host (after_resolve ctx cpu p)))) /\
  fst (try_except_pass (ipex_probe host) p) = Ok tt /\
  (forall e, intel_pytorch_extension host = Raise e ->
             snd (try_except_pass (ipex_probe host) p) = p) /\
  (forall ipex e, intel_pytorch_extension host = Ok ipex ->
                  torch_device (DEVICE ipex) = Raise e ->
                  snd (try_except_pass (ipex_probe host) p) = p) /\
  (forall ipex d, intel_pytorch_extension host = Ok ipex ->
                  torch_device (DEVICE ipex) = Ok d ->
                  device (self (snd (try_except_pass (ipex_probe host) p))) = Some d).
Proof.
  split; [apply initialize_after_probe |].
  split; [reflexivity |].
  unfold try_except_pass. cbn [snd].
  split; [| split].
  - intros e H. rewrite (ipex_probe_absent _ _ _ H). reflexivity.
  - intros ipex e H Hd. rewrite (ipex_probe_no_device _ _ _ _ H Hd). reflexivity.
  - intros ipex d H Hd. apply (ipex_probe_switches _ _ _ _ H Hd).
Qed.

(** C4 at samples: a host without the library, and a host with it. *)
Lemma ipex_probe_best_effort_witness :
  let ctx := Samples.context_of None None in
  let p := after_resolve ctx cpu (fresh_process ∅) in
  snd (try_except_pass
         (ipex_probe (Samples.host_of false Samples.no_ipex Samples.lscpu_ht [] [])) p) = p /\
  device (self (snd (try_except_pass
                       (ipex_probe (Samples.host_of false Samples.ipex_ok
                                      Samples.lscpu_unknown [] [])) p)))
  = Some (mkDevice "dpcpp" None).
Proof.
  intros ctx p. split.
  - refine (proj1 (proj2 (proj2 (ipex_probe_best_effort
              (Samples.host_of false Samples.no_ipex Samples.lscpu_ht [] []) ctx p))) _ _).
    reflexivity.
  - refine (proj2 (proj2 (proj2 (proj2 (ipex_probe_best_effort
              (Samples.host_of false Samples.ipex_ok Samples.lscpu_unknown [] []) ctx p))))
              (mkIpex "dpcpp" (Ok tt)) _ _ _); reflexivity.
Defined.

(** C4 as stated fails when a step of the probe raises after the device of
    the library has been stored: the per-core field of [lscpu] does not read
    as an integer, or enabling mixed precision raises.  The probe raises, the
    error is swallowed, and the device is not the one resolved before. *)
Lemma ipex_probe_failure_keeps_switch :
  let ctx := Samples.context_of None None in
  let p := after_resolve ctx cpu (fresh_process ∅) in
  (let host := Samples.host_of false Samples.ipex_ok Samples.lscpu_unknown [] [] in
   device (self p) = Some cpu /\
   fst (ipex_probe host p) = Raise (ValueError "invalid literal for int() with base 10: '-'") /\
   device (self (snd (try_except_pass (ipex_probe host) p))) = Some (mkDevice "dpcpp" None) /\
   device (self (snd (try_except_pass (ipex_probe host) p))) <> device (self p)) /\
  (let host := Samples.host_of false Samples.ipex_amp_fails Samples.lscpu_ht [] [] in
   fst (ipex_probe host p) = Raise (RuntimeError "mixed precision is not supported") /\
   device (self (snd (try_except_pass (ipex_probe host) p))) <> device (self p)).
Proof.
  cbv zeta. repeat split; try reflexivity; vm_compute; discriminate.
Qed.

(** The probe when none of its steps raises. *)
Lemma ipex_probe_run host p ipex d lines single :
  intel_pytorch_extension host = Ok ipex ->
  torch_device (DEVICE ipex) = Ok d ->
  (environ p !! mixed_precision_override = None ->
   enable_auto_mix_precision ipex = Ok tt) ->
  popen_lscpu host = Ok lines ->
  one_thread_per_core (per_core_of lines) = Ok single ->
  let p' := snd (ipex_probe host p) in
  fst (ipex_probe host p) = Ok tt /\
  amp_enabled p' =
    amp_enabled p || bool_decide (environ p !! mixed_precision_override = None) /\
  environ p' =
    <["KMP_AFFINITY" := if single then KMP_compact else KMP_compact_1_0]> (environ p).
Proof.
  intros H Hd Hamp Hls Hone. cbv zeta.
  unfold ipex_probe, enable_amp, mixed_precision_override in *.
  unfold set_device, setenv, get_environ, get_self, put_self, lift, ret.
  unfold bind. rewrite H, Hd. cbn [environ amp_enabled self fst snd].
  destruct (environ p !! "IPEX_DISABLE_MIXED_PRECISION") as [v|] eqn:Henv.
  - rewrite Hls, Hone.
    rewrite bool_decide_eq_false_2 by discriminate. rewrite orb_false_r.
    destruct single; repeat split; reflexivity.
  - rewrite (Hamp eq_refl), Hls, Hone.
    rewrite bool_decide_eq_true_2 by reflexivity. rewrite orb_true_r.
    destruct single; repeat split; reflexivity.
Qed.

Lemma one_thread_per_core_true per_core :
  one_thread_per_core per_core = Ok true <->
  exists first rest, per_core = first :: rest /\ Py.int first = Ok 1%Z.
Proof.
  unfold one_thread_per_core. split.
  - destruct per_core as [|first rest]; [discriminate |].
    destruct (Py.int first) as [n|e] eqn:E; [| discriminate].
    intros [= Hn]. apply Z.eqb_eq in Hn. subst n. eauto.
  - intros (first & rest & -> & ->). reflexivity.
Qed.

(** C9, as the code has it.  Without accelerator, with the library imported
    and its device built, and when no later step of the probe raises (mixed
    precision can be enabled where the override is unset, [lscpu] is read and
    its per-core field reads as an integer): after [initialize] mixed
    precision is on if it was on before or the override is unset, so from an
    off switch it is on exactly when the override is unset; and
    [KMP_AFFINITY] holds the compact profile when [lscpu] reports one thread
    per core and the other profile otherwise, the rest of the environment
    being what it was. *)
Theorem initialize_acceleration_settings host ctx p ipex d lines single :
  cuda_is_available host = false ->
  intel_pytorch_extension host = Ok ipex ->
  torch_device (DEVICE ipex) = Ok d ->
  (environ p !! mixed_precision_override = None ->
   enable_auto_mix_precision ipex = Ok tt) ->
  popen_lscpu host = Ok lines ->
  one_thread_per_core (per_core_of lines) = Ok single ->
  let p' := snd (initialize host ctx p) in
  amp_enabled p' =
    amp_enabled p || bool_decide (environ p !! mixed_precision_override = None) /\
  (amp_enabled p = false ->
   (amp_enabled p' = true <-> environ p !! mixed_precision_override = None)) /\
  environ p' =
    <["KMP_AFFINITY" := if single then KMP_compact else KMP_compact_1_0]> (environ p) /\
  (environ p' !! "KMP_AFFINITY" = Some KMP_compact \/
   environ p' !! "KMP_AFFINITY" = Some KMP_compact_1_0) /\
  (single = true <->
   exists first rest, per_core_of lines = first :: rest /\ Py.int first = Ok 1%Z).
Proof.
  intros Hcpu H Hd Hamp Hls Hone. cbv zeta.
  rewrite (initialize_after_probe _ _ _ Hcpu).
  destruct (after_probe_settings host ctx
              (snd (ipex_probe host (after_resolve ctx cpu p)))) as [-> ->].
  destruct (ipex_probe_run host (after_resolve ctx cpu p) ipex d lines single
              H Hd Hamp Hls Hone) as (_ & -> & ->).
  cbn [after_resolve set_device set_manifest bind get_self put_self snd
       environ amp_enabled].
  split; [reflexivity |]. split; [| split; [reflexivity |]; split].
  - intros ->. cbn [orb]. rewrite bool_decide_eq_true. reflexivity.
  - rewrite lookup_insert_eq. destruct single; auto.
  - rewrite <- one_thread_per_core_true, Hone.
    split; [intros -> | intros [= ->]]; reflexivity.
Qed.

(** C9 at a sample: one thread per core, the override set to the empty
    string. *)
Lemma initialize_acceleration_settings_witness :
  let host := Samples.host_of false Samples.ipex_ok Samples.lscpu_no_ht ["/m/model.pt"] [] in
  let ctx := Samples.context_of None None in
  let p := fresh_process (<[mixed_precision_override := EmptyString]> ∅) in
  amp_enabled (snd (initialize host ctx p)) = false /\
  environ (snd (initialize host ctx p)) !! "KMP_AFFINITY" = Some KMP_compact.
Proof.
  intros host ctx p.
  destruct (initialize_acceleration_settings host ctx p (mkIpex "dpcpp" (Ok tt))
              (mkDevice "dpcpp" None) Samples.lscpu_no_ht true
              eq_refl eq_refl eq_refl (fun _ => eq_refl) eq_refl eq_refl)
    as (Hamp & _ & Henv & _).
  split; [rewrite Hamp; reflexivity | rewrite Henv; reflexivity].
Defined.

(** C9 as stated fails when a step of the probe raises.  With a per-core
    field of [lscpu] that does not read as an integer, [KMP_AFFINITY] is not
    written at all; with a library that cannot enable mixed precision, the
    override is unset and mixed precision is off (and [KMP_AFFINITY] is not
    written either). *)
Lemma initialize_acceleration_settings_need_no_failure :
  let ctx := Samples.context_of None None in
  let p := fresh_process ∅ in
  (let host := Samples.host_of false Samples.ipex_ok Samples.lscpu_unknown ["/m/model.pt"] [] in
   cuda_is_available host = false /\
   is_ok (intel_pytorch_extension host) = true /\
   fst (initialize host ctx p) = Ok tt /\
   environ (snd (initialize host ctx p)) !! "KMP_AFFINITY" = None) /\
  (let host := Samples.host_of false Samples.ipex_amp_fails Samples.lscpu_ht ["/m/model.pt"] [] in
   is_ok (intel_pytorch_extension host) = true /\
   environ p !! mixed_precision_override = None /\
   amp_enabled (snd (initialize host ctx p)) = false /\
   environ (snd (initialize host ctx p)) !! "KMP_AFFINITY" = None).
Proof.
  cbv zeta. repeat split; vm_compute; reflexivity.
Qed.

(** ** The pipeline stages (C6) *)

(** C6, as the code has it.  The class puts no guard on the stages: the
    bodies of [preprocess], [inference] and [postprocess] are empty, so a call
    that reaches them returns [None], raises nothing and leaves the process
    as it is, whether [initialized] is set or not.  Rejecting calls made
    before a successful [initialize] is left to the caller and the
    subclass. *)
Theorem stages_have_no_guard (data : PyVal) (p : Process) :
  preprocess data p = (Ok PyNone, p) /\
  inference data p = (Ok PyNone, p) /\
  postprocess data p = (Ok PyNone, p).
Proof. repeat split. Qed.

(** C6 as stated fails on a handler that was just constructed, and on one
    whose [initialize] failed: each stage returns instead of raising. *)
Lemma stages_run_uninitialized :
  let data := PyData [1; 2; 3]%Z in
  let fresh := fresh_process ∅ in
  let failed := snd (initialize (Samples.host_of false Samples.no_ipex Samples.lscpu_ht [] [])
                       (Samples.context_of None None) fresh) in
  (initialized (self fresh) = false /\
   is_ok (fst (preprocess data fresh)) = true /\
   is_ok (fst (inference data fresh)) = true /\
   is_ok (fst (postprocess data fresh)) = true) /\
  (initialized (self failed) = false /\
   model (self failed) = None /\
   is_ok (fst (preprocess data failed)) = true /\
   is_ok (fst (inference data failed)) = true /\
   is_ok (fst (postprocess data failed)) = true).
Proof.
  cbv zeta. repeat split; reflexivity.
Qed.

(** * Further properties of [initialize] *)

(** ** The outcome of a call, by cases *)

(** [initialize] stops at the first step that raises, in the state that step
    left; when none does it sets the flag. *)
Lemma initialize_cases host ctx p :
  initialize host ctx p =
  match prepare host ctx p with
  | (Ok _, p1) =>
      match load_mapping host (model_dir (system_properties ctx)) p1 with
      | (Ok _, p2) => (Ok tt, snd (set_initialized true p2))
      | (Raise e, p2) => (Raise e, p2)
      end
  | (Raise e, p1) => (Raise e, p1)
  end.
Proof.
  rewrite initialize_prepare. unfold bind at 1.
  destruct (prepare host ctx p) as [[[]|e] p1]; [| reflexivity].
  unfold bind.
  destruct (load_mapping host (model_dir (system_properties ctx)) p1)
    as [[[]|e] p2]; reflexivity.
Qed.

Lemma prepare_initialized host ctx p :
  initialized (self (snd (prepare host ctx p))) = initialized (self p).
Proof.
  destruct (torch_device (device_string host (system_properties ctx)))
    as [d0|e] eqn:E.
  - rewrite (prepare_resolve_ok _ _ _ _ E).
    rewrite (mf_initialized _ _ (load_model_frame _ _ _ _)).
    rewrite (bf_initialized _ _ (after_probe_frame _ _)). reflexivity.
  - rewrite (prepare_resolve_raise _ _ _ _ E). reflexivity.
Qed.

Lemma prepare_manifest host ctx p :
  manifest (self (snd (prepare host ctx p))) = Some (ctx_manifest ctx).
Proof.
  destruct (torch_device (device_string host (system_properties ctx)))
    as [d0|e] eqn:E.
  - rewrite (prepare_resolve_ok _ _ _ _ E).
    rewrite (mf_manifest _ _ (load_model_frame _ _ _ _)).
    rewrite (bf_manifest _ _ (after_probe_frame _ _)). reflexivity.
  - rewrite (prepare_resolve_raise _ _ _ _ E). reflexivity.
Qed.

(** ** The flag and the manifest, whatever the outcome *)

(** X1.  After a call of [initialize] the flag [initialized] is set exactly
    when it was set before or the call returned: a call that raises, at
    whichever step, leaves the flag as it was, and no call clears it. *)
Theorem initialized_iff_returned host ctx p :
  initialized (self (snd (initialize host ctx p))) =
  initialized (self p) || is_ok (fst (initialize host ctx p)).
Proof.
  rewrite initialize_cases.
  pose proof (prepare_initialized host ctx p) as H1.
  destruct (prepare host ctx p) as [[[]|e] p1]; cbn [fst snd] in *.
  - pose proof (pf_initialized _ _ (load_mapping_frame host
                  (model_dir (system_properties ctx)) p1)) as H2.
    destruct (load_mapping host (model_dir (system_properties ctx)) p1)
      as [[[]|e] p2]; cbn [fst snd is_ok] in *.
    + rewrite orb_true_r. reflexivity.
    + rewrite orb_false_r. congruence.
  - cbn [is_ok]. rewrite orb_false_r. exact H1.
Qed.

(** X2.  Every call of [initialize] stores the manifest of the context in
    the handler, also a call that raises, at whichever step it does. *)
Theorem manifest_always_stored host ctx p :
  manifest (self (snd (initialize host ctx p))) = Some (ctx_manifest ctx).
Proof.
  rewrite initialize_cases.
  pose proof (prepare_manifest host ctx p) as H1.
  destruct (prepare host ctx p) as [[[]|e] p1]; cbn [fst snd] in *; [| exact H1].
  pose proof (pf_manifest _ _ (load_mapping_frame host
                (model_dir (system_properties ctx)) p1)) as H2.
  destruct (load_mapping host (model_dir (system_properties ctx)) p1)
    as [[[]|e] p2]; cbn [fst snd set_initialized bind get_self put_self self manifest] in *;
    congruence.
Qed.

(** ** The process-wide settings *)


Lemma ipex_probe_amp host p :
  amp_enabled (snd (ipex_probe host p)) = amp_enabled p \/
  (amp_enabled (snd (ipex_probe host p)) = true /\
   environ p !! mixed_precision_override = None).
Proof.
  unfold ipex_probe, enable_amp, mixed_precision_override. run; cbn; auto.
Qed.

(** The settings after a call are those the probe left, when it ran. *)
Lemma initialize_settings host ctx p :
  (environ (snd (initialize host ctx p)) = environ p /\
   amp_enabled (snd (initialize host ctx p)) = amp_enabled p) \/
  (cuda_is_available host = false /\
   environ (snd (initialize host ctx p))
   = environ (snd (ipex_probe host (after_resolve ctx cpu p))) /\
   amp_enabled (snd (initialize host ctx p))
   = amp_enabled (snd (ipex_probe host (after_resolve ctx cpu p)))).
Proof.
  destruct (cuda_is_available host) eqn:Hc.
  - left.
    destruct (torch_device (device_string host (system_properties ctx)))
      as [d0|e] eqn:E.
    + rewrite (initialize_resolve_ok _ _ _ _ E).
      destruct (after_probe_settings host ctx
                  (after_probe host (after_resolve ctx d0 p))) as [-> ->].
      unfold after_probe. rewrite Hc. split; reflexivity.
    + rewrite (initialize_resolve_raise _ _ _ _ E). split; reflexivity.
  - right. split; [reflexivity |].
    rewrite (initialize_after_probe _ _ _ Hc).
    apply after_probe_settings.
Qed.




(** X5.  Mixed precision is never switched off by [initialize], and it is
    never switched on while the override variable is set, whatever its value
    (the empty string included). *)
Theorem override_blocks_mixed_precision host ctx p :
  (amp_enabled p = true -> amp_enabled (snd (initialize host ctx p)) = true) /\
  (forall v, environ p !! mixed_precision_override = Some v ->
             amp_enabled (snd (initialize host ctx p)) = amp_enabled p).
Proof.
  assert (H : amp_enabled (snd (initialize host ctx p)) = amp_enabled p \/
              (amp_enabled (snd (initialize host ctx p)) = true /\
               environ p !! mixed_precision_override = None)).
  { destruct (initialize_settings host ctx p) as [[_ Ha] | (_ & _ & Ha)].
    - left. exact Ha.
    - rewrite Ha. apply (ipex_probe_amp host (after_resolve ctx cpu p)). }
  split.
  - intros Hon. destruct H as [-> | [-> _]]; auto.
  - intros v Hv. destruct H as [-> | [_ Hn]]; [reflexivity | congruence].
Qed.

(** X5 at a sample: the library is installed, the override is the empty
    string. *)
Lemma override_blocks_mixed_precision_witness :
  let host := Samples.host_of false Samples.ipex_ok Samples.lscpu_ht ["/m/model.pt"] [] in
  let ctx := Samples.context_of None None in
  let p := fresh_process (<[mixed_precision_override := EmptyString]> ∅) in
  amp_enabled (snd (initialize host ctx p)) = false.
Proof.
  intros host ctx p.
  exact (proj2 (override_blocks_mixed_precision host ctx p) EmptyString eq_refl).
Defined.

(** ** Contexts with a missing entry *)

Lemma load_model_no_section host ctx ml q :
  manifest (self q) = Some (ctx_manifest ctx) ->
  manifest_model (ctx_manifest ctx) = None ->
  load_model host (model_dir (system_properties ctx)) ml q = (Raise (KeyError "model"), q).
Proof.
  intros Hman Hs. unfold load_model, bind, get_self, subscriptable, getitem, raise, ret.
  rewrite Hman, Hs. reflexivity.
Qed.

Lemma load_model_no_serialized host ctx ml q section :
  manifest (self q) = Some (ctx_manifest ctx) ->
  manifest_model (ctx_manifest ctx) = Some section ->
  serializedFile section = None ->
  load_model host (model_dir (system_properties ctx)) ml q
  = (Raise (KeyError "serializedFile"), q).
Proof.
  intros Hman Hs Hf. unfold load_model, bind, get_self, subscriptable, getitem, raise, ret.
  rewrite Hman, Hs, Hf. reflexivity.
Qed.

Lemma load_model_no_dir host ctx ml q section file :
  manifest (self q) = Some (ctx_manifest ctx) ->
  manifest_model (ctx_manifest ctx) = Some section ->
  serializedFile section = Some file ->
  model_dir (system_properties ctx) = None ->
  load_model host (model_dir (system_properties ctx)) ml q
  = (Raise (TypeError "expected str, bytes or os.PathLike object, not NoneType"), q).
Proof.
  intros Hman Hs Hf Hd.
  unfold load_model, bind, get_self, subscriptable, getitem, path_join, raise, ret.
  rewrite Hman, Hs, Hf, Hd. reflexivity.
Qed.

(** The state in which loading the model starts, the device being
    resolved. *)
Lemma before_load_model host ctx d0 p :
  let q := after_probe host (after_resolve ctx d0 p) in
  manifest (self q) = Some (ctx_manifest ctx) /\
  model (self q) = model (self p) /\
  mapping (self q) = mapping (self p) /\
  initialized (self q) = initialized (self p) /\
  device (self q) = Some (probed_device host d0).
Proof.
  cbv zeta.
  destruct (after_probe_frame host (after_resolve ctx d0 p)) as [Hm Hmap Hi Hman _].
  rewrite Hm, Hmap, Hi, Hman, after_probe_device. repeat split.
Qed.

(** X6.  When the device is resolved and the manifest has no [model] entry,
    or its [model] entry has no [serializedFile], [initialize] raises the
    [KeyError] of the missing key, whatever the model directory and the files
    are, and leaves [self.model] as it was. *)
Theorem manifest_key_missing host ctx d0 p :
  torch_device (device_string host (system_properties ctx)) = Ok d0 ->
  (manifest_model (ctx_manifest ctx) = None ->
   fst (initialize host ctx p) = Raise (KeyError "model") /\
   model (self (snd (initialize host ctx p))) = model (self p)) /\
  (forall section,
      manifest_model (ctx_manifest ctx) = Some section ->
      serializedFile section = None ->
      fst (initialize host ctx p) = Raise (KeyError "serializedFile") /\
      model (self (snd (initialize host ctx p))) = model (self p)).
Proof.
  intros E. rewrite (initialize_resolve_ok _ _ _ _ E).
  destruct (before_load_model host ctx d0 p) as (Hman & Hm & _).
  split.
  - intros Hs.
    rewrite (bind_raise _ _ _ _ _ (load_model_no_section _ _ _ _ Hman Hs)).
    split; [reflexivity | exact Hm].
  - intros section Hs Hf.
    rewrite (bind_raise _ _ _ _ _ (load_model_no_serialized _ _ _ _ _ Hman Hs Hf)).
    split; [reflexivity | exact Hm].
Qed.

(** X7.  When the device is resolved, the manifest names the serialized
    file and the system properties have no [model_dir], [initialize] raises
    the [TypeError] of [os.path.join], before any file is looked for, and
    leaves [self.model] as it was. *)
Theorem model_dir_missing host ctx d0 section file p :
  torch_device (device_string host (system_properties ctx)) = Ok d0 ->
  manifest_model (ctx_manifest ctx) = Some section ->
  serializedFile section = Some file ->
  model_dir (system_properties ctx) = None ->
  fst (initialize host ctx p)
  = Raise (TypeError "expected str, bytes or os.PathLike object, not NoneType") /\
  model (self (snd (initialize host ctx p))) = model (self p).
Proof.
  intros E Hs Hf Hd. rewrite (initialize_resolve_ok _ _ _ _ E).
  destruct (before_load_model host ctx d0 p) as (Hman & Hm & _).
  rewrite (bind_raise _ _ _ _ _ (load_model_no_dir _ _ _ _ _ _ Hman Hs Hf Hd)).
  split; [reflexivity | exact Hm].
Qed.


(** X6 at samples: a manifest without [model], and one without
    [serializedFile]. *)
Lemma manifest_key_missing_witness :
  let host := Samples.host_of false Samples.no_ipex Samples.lscpu_ht ["/m/model.pt"] [] in
  let p := fresh_process ∅ in
  fst (initialize host MoreSamples.no_model_entry p) = Raise (KeyError "model") /\
  fst (initialize host MoreSamples.no_serialized_file p) = Raise (KeyError "serializedFile").
Proof.
  intros host p. split.
  - exact (proj1 (proj1 (manifest_key_missing host MoreSamples.no_model_entry cpu p
                           eq_refl) eq_refl)).
  - exact (proj1 (proj2 (manifest_key_missing host MoreSamples.no_serialized_file cpu p
                           eq_refl) _ eq_refl eq_refl)).
Defined.

(** X7 at a sample. *)
Lemma model_dir_missing_witness :
  let host := Samples.host_of false Samples.no_ipex Samples.lscpu_ht ["/m/model.pt"] [] in
  fst (initialize host MoreSamples.no_model_dir (fresh_process ∅))
  = Raise (TypeError "expected str, bytes or os.PathLike object, not NoneType") /\
  model (self (snd (initialize host MoreSamples.no_model_dir (fresh_process ∅)))) = None.
Proof.
  intros host.
  exact (model_dir_missing host MoreSamples.no_model_dir cpu _ "model.pt"
           (fresh_process ∅) eq_refl eq_refl eq_refl eq_refl).
Defined.

(** ** A mapping file that does not parse *)

Lemma prepare_ok host ctx p p1 :
  prepare host ctx p = (Ok tt, p1) ->
  exists m d,
    model (self p1) = Some m /\ device (self p1) = Some d /\
    mh_training m = false /\ mh_device m = d.
Proof.
  intros H.
  destruct (torch_device (device_string host (system_properties ctx)))
    as [d0|e] eqn:E.
  - rewrite (prepare_resolve_ok _ _ _ _ E) in H. apply (load_model_ok _ _ _ _ _ H).
  - rewrite (prepare_resolve_raise _ _ _ _ E) in H. discriminate.
Qed.

(** X8.  When the mapping file is there and reading it raises, [initialize]
    raises that error after the model has been loaded: the handler is left
    with the model, placed on its device and in evaluation mode, with the
    mapping it had before and with the flag unset. *)
Theorem mapping_file_unreadable host ctx path e p p1 :
  mapping_path ctx = Some path ->
  isfile host path = true ->
  json_load host path = Raise e ->
  prepare host ctx p = (Ok tt, p1) ->
  initialize host ctx p = (Raise e, p1) /\
  (exists m d,
      model (self p1) = Some m /\ device (self p1) = Some d /\
      mh_training m = false /\ mh_device m = d) /\
  mapping (self p1) = mapping (self p) /\
  initialized (self p1) = initialized (self p).
Proof.
  intros Hpath Hfile Hjson Hprep. unfold mapping_path in Hpath.
  destruct (model_dir (system_properties ctx)) as [dir|] eqn:Hdir; [| discriminate].
  injection Hpath as <-.
  split; [| split; [exact (prepare_ok _ _ _ _ Hprep) | split]].
  - rewrite initialize_cases, Hprep, Hdir.
    unfold load_mapping, path_join, bind, ret, lift. rewrite Hfile, Hjson. reflexivity.
  - rewrite <- (prepare_mapping host ctx p), Hprep. reflexivity.
  - rewrite <- (prepare_initialized host ctx p), Hprep. reflexivity.
Qed.

(** X8 at a sample: the script branch, a mapping file that is not JSON. *)
Lemma mapping_file_unreadable_witness :
  let host := MoreSamples.with_broken_mapping
                (Samples.host_of false Samples.no_ipex Samples.lscpu_ht
                   ["/m/model.pt"; "/m/index_to_name.json"] []) in
  let ctx := Samples.context_of None None in
  let p := fresh_process ∅ in
  fst (initialize host ctx p)
  = Raise (ValueError "Expecting value: line 1 column 1 (char 0)") /\
  initialized (self (snd (initialize host ctx p))) = false /\
  is_Some (model (self (snd (initialize host ctx p)))).
Proof.
  intros host ctx p.
  destruct (mapping_file_unreadable host ctx "/m/index_to_name.json" _ p
              (snd (prepare host ctx p)) eq_refl eq_refl eq_refl eq_refl)
    as (Hrun & (m & d & Hm & _) & _ & Hi).
  rewrite Hrun. cbn [fst snd]. rewrite Hm, Hi.
  split; [reflexivity | split; [reflexivity | eexists; reflexivity]].
Defined.

(** ** The script branch *)

Section ScriptBranch.
Variables (host : Host) (ctx : Context) (path def_path : string) (d0 : Device).
Hypothesis Hartifact : artifact_path ctx = Some path.
Hypothesis Hartifact_file : isfile host path = true.
Hypothesis Hdef : model_def_path ctx = Some def_path.
Hypothesis Hdef_file : isfile host def_path = false.
Hypothesis Hresolve :
  torch_device (device_string host (system_properties ctx)) = Ok d0.

(** With the artifact in place and no model definition file, loading the
    model is the script branch. *)
Lemma load_model_script q :
  manifest (self q) = Some (ctx_manifest ctx) ->
  load_model host (model_dir (system_properties ctx)) (map_location_of host) q =
  ((load_script host path (map_location_of host) ;;
    place_and_eval host ;;
    logger DEBUG ("Model file " +:+ path +:+ " loaded successfully")) q).
Proof.
  intros Hman. clear Hresolve.
  unfold artifact_path, model_def_path, load_model in *.
  destruct (model_dir (system_properties ctx)) as [dir|]; [| discriminate].
  destruct (manifest_model (ctx_manifest ctx)) as [section|] eqn:Hs; [| discriminate].
  destruct (serializedFile section) as [file|] eqn:Hf; [| discriminate].
  injection Hartifact as <-. injection Hdef as <-.
  unfold bind at 1, get_self. unfold bind at 1, subscriptable. rewrite Hman.
  unfold ret at 1. unfold bind at 1, getitem. rewrite Hs.
  unfold ret at 1. unfold bind at 1. rewrite Hf.
  unfold ret at 1. unfold bind at 1, path_join.
  unfold ret at 1. rewrite Hartifact_file. cbn [negb].
  unfold bind at 1. unfold ret at 1. rewrite Hdef_file. reflexivity.
Qed.

(** X9.  The device being resolved, the artifact being there and the model
    definition path not being a regular file (also when the manifest names no
    model file): [initialize] loads the artifact as a script module, whatever
    the importable modules are.  When that load raises, [initialize] raises
    the same error and [self.model] is what it was.  When it returns a
    module, and moving it to the device and reading a mapping file that is
    there raise nothing, [initialize] succeeds and the handler holds that
    module, its class and parameters as loaded, on the device and in
    evaluation mode, and the log notes that no model file was found. *)
Theorem script_branch p :
  (forall e,
      torch_jit_load host path (map_location_of host) = Raise e ->
      fst (initialize host ctx p) = Raise e /\
      model (self (snd (initialize host ctx p))) = model (self p)) /\
  (forall m,
      torch_jit_load host path (map_location_of host) = Ok m ->
      device_ready host (probed_device host d0) = true ->
      (forall mp, mapping_path ctx = Some mp -> isfile host mp = true ->
                  is_ok (json_load host mp) = true) ->
      exists p' m',
        initialize host ctx p = (Ok tt, p') /\
        model (self p') = Some m' /\
        mh_class m' = mh_class m /\ mh_state m' = mh_state m /\
        mh_training m' = false /\ mh_device m' = probed_device host d0 /\
        In (DEBUG, "No model file found for eager mode, trying to load torchscript model")
           (log p')).
Proof.
  pose (p2 := after_probe host (after_resolve ctx d0 p)).
  destruct (before_load_model host ctx d0 p) as (Hman & Hm & _ & _ & Hdev).
  fold p2 in Hman, Hm, Hdev.
  rewrite (initialize_resolve_ok _ _ _ _ Hresolve). fold p2.
  split.
  - intros e Hjit.
    assert (Hrun : load_model host (model_dir (system_properties ctx))
                     (map_location_of host) p2
                   = (Raise e, snd (logger DEBUG
                        "No model file found for eager mode, trying to load torchscript model"
                        p2))).
    { rewrite (load_model_script _ Hman).
      unfold load_script, bind, lift, logger. rewrite Hjit. reflexivity. }
    rewrite (bind_raise _ _ _ _ _ Hrun). split; [reflexivity | exact Hm].
  - intros m Hjit Hready Hjson.
    assert (Hload : forall q,
               load_script host path (map_location_of host) q
               = (Ok tt, snd (set_model m (snd (logger DEBUG
                    "No model file found for eager mode, trying to load torchscript model"
                    q))))).
    { intros q. unfold load_script, bind, lift, logger. rewrite Hjit. reflexivity. }
    unfold bind at 1. rewrite (load_model_script _ Hman).
    unfold bind at 1. rewrite Hload.
    unfold bind at 1, place_and_eval. unfold bind at 1, get_self.
    cbn [set_model logger bind get_self put_self snd self model device].
    rewrite Hdev. unfold model_to, lift. rewrite Hready.
    cbn [bind ret set_model get_self put_self logger snd fst self model device
         mapping initialized manifest environ amp_enabled log].
    unfold bind at 1, load_mapping.
    unfold mapping_path in Hjson.
    assert (Hdir : exists dir, model_dir (system_properties ctx) = Some dir).
    { unfold artifact_path in Hartifact.
      destruct (model_dir (system_properties ctx)); [eauto | discriminate]. }
    destruct Hdir as [dir Hdir]. rewrite Hdir in *.
    unfold bind at 1, path_join, ret at 1.
    destruct (isfile host (Py.os_path_join dir "index_to_name.json")) eqn:Hmf.
    + specialize (Hjson _ eq_refl Hmf).
      unfold bind, lift.
      destruct (json_load host (Py.os_path_join dir "index_to_name.json"));
        [| discriminate].
      eexists _, _. cbn. repeat split; try reflexivity.
      simpl. rewrite !in_app_iff. simpl. auto.
    + eexists _, _. cbn. repeat split; try reflexivity.
      simpl. rewrite !in_app_iff. simpl. auto.
Qed.

End ScriptBranch.

(** X9 at a sample: no [modelFile] in the manifest, the model directory
    holds the artifact only. *)
Lemma script_branch_witness :
  let host := Samples.host_of false Samples.no_ipex Samples.lscpu_ht ["/m/model.pt"] [] in
  let ctx := Samples.context_of None None in
  exists p' m',
    initialize host ctx (fresh_process ∅) = (Ok tt, p') /\
    model (self p') = Some m' /\
    mh_class m' = "RecursiveScriptModule" /\
    mh_state m' = [("fc.weight", [1; 2]%Z)] /\
    mh_training m' = false /\ mh_device m' = cpu /\
    In (DEBUG, "No model file found for eager mode, trying to load torchscript model")
       (log p').
Proof.
  intros host ctx.
  refine (proj2 (script_branch host ctx "/m/model.pt" "/m/" cpu
                   eq_refl eq_refl eq_refl eq_refl eq_refl (fresh_process ∅))
                Samples.scripted eq_refl eq_refl _).
  intros mp [= <-]. discriminate.
Defined.

(** ** The topology lines *)

Lemma per_core_of_skip before rest :
  no_per_core before = true ->
  per_core_of (before ++ rest) = per_core_of rest.
Proof.
  unfold no_per_core, per_core_of. induction before as [|val before IH]; cbn.
  - reflexivity.
  - intros H. apply andb_true_iff in H as [Hval Hrest].
    apply negb_true_iff in Hval. rewrite Hval. apply IH, Hrest.
Qed.

(** X10.  Of the lines of [lscpu], only the first that contains "per core"
    is read: its last blank-separated field decides between the two
    profiles, or raises when it is not an integer, whatever the lines after
    it say.  When no line contains "per core", the test is false and nothing
    raises. *)
Theorem first_per_core_line_decides before line rest :
  no_per_core before = true ->
  (Py.contains "per core" line = true ->
   one_thread_per_core (per_core_of (before ++ line :: rest)) =
   match Py.int (Py.split_last " " (Py.strip line)) with
   | Ok n => Ok (n =? 1)%Z
   | Raise e => Raise e
   end) /\
  one_thread_per_core (per_core_of before) = Ok false.
Proof.
  intros Hbefore. split.
  - intros Hline. rewrite (per_core_of_skip _ _ Hbefore).
    unfold per_core_of. cbn [List.filter]. rewrite Hline. reflexivity.
  - rewrite <- (app_nil_r before), (per_core_of_skip _ _ Hbefore). reflexivity.
Qed.

(** X10 at a sample: a second per-core line that contradicts the first. *)
Lemma first_per_core_line_decides_witness :
  one_thread_per_core
    (per_core_of (["Architecture:        x86_64" +:+ Samples.nl]
                    ++ ("Thread(s) per core:  1" +:+ Samples.nl)
                    :: ["Thread(s) per core:  2" +:+ Samples.nl]))
  = Ok true /\
  one_thread_per_core (per_core_of ["Architecture:        x86_64" +:+ Samples.nl])
  = Ok false.
Proof.
  split.
  - exact (proj1 (first_per_core_line_decides
                    ["Architecture:        x86_64" +:+ Samples.nl]
                    ("Thread(s) per core:  1" +:+ Samples.nl)
                    ["Thread(s) per core:  2" +:+ Samples.nl] eq_refl) eq_refl).
  - exact (proj2 (first_per_core_line_decides
                    ["Architecture:        x86_64" +:+ Samples.nl]
                    EmptyString [] eq_refl)).
Defined.

(** ** Device resolution on a host with an accelerator *)

Lemma index_numeral_negative (n : Z) :
  (n < 0)%Z -> index_numeral (Py.str_int n) = None.
Proof.
  intros Hn. destruct n as [|q|q]; [lia | lia |].
  unfold index_numeral, Py.str_int. cbn [Z.to_int NilZero.string_of_int].
  cbn [NilZero.uint_of_string NilEmpty.uint_of_string].
  destruct (NilEmpty.uint_of_string (NilZero.string_of_uint (Pos.to_uint q)));
    reflexivity.
Qed.

Lemma resolve_device_negative host properties (n : Z) :
  cuda_is_available host = true ->
  gpu_id properties = Some n ->
  (n < 0)%Z ->
  is_ok (torch_device (device_string host properties)) = false.
Proof.
  intros H Hg Hn. unfold device_string, map_location_of. rewrite H, Hg.
  unfold Py.str_opt_int. rewrite torch_device_cuda.
  unfold parse_index. rewrite (index_numeral_negative _ Hn). reflexivity.
Qed.

Lemma resolve_device_too_large host properties (n : Z) :
  cuda_is_available host = true ->
  gpu_id properties = Some n ->
  (INT_MAX < n)%Z ->
  is_ok (torch_device (device_string host properties)) = false.
Proof.
  intros H Hg Hn. unfold device_string, map_location_of. rewrite H, Hg.
  unfold Py.str_opt_int. rewrite torch_device_cuda.
  unfold parse_index.
  rewrite (index_numeral_str_int n) by (unfold INT_MAX in Hn; lia).
  rewrite Z2N.id by (unfold INT_MAX in Hn; lia).
  destruct (Z.leb_spec n INT_MAX) as [Hle | _]; [lia | reflexivity].
Qed.

(** X11.  On a host with an accelerator, [torch.device] accepts the device
    string of line 37 exactly when the context gives a [gpu_id] from 0 to the
    largest C [int]; the index of the device is then [gpu_id] narrowed to
    eight bits, which is [gpu_id] itself up to 127.  In every other case
    ([gpu_id] absent, negative or larger) the call of [initialize] raises
    before anything but the manifest is written: the device, the model and
    the flag are what they were. *)
Theorem accelerator_needs_index host ctx p :
  cuda_is_available host = true ->
  (is_ok (torch_device (device_string host (system_properties ctx))) = true <->
   exists n : Z, gpu_id (system_properties ctx) = Some n /\ (0 <= n <= INT_MAX)%Z) /\
  (forall n : Z,
      gpu_id (system_properties ctx) = Some n -> (0 <= n <= INT_MAX)%Z ->
      torch_device (device_string host (system_properties ctx))
      = Ok (cuda (to_device_index n)) /\
      ((n <= 127)%Z -> to_device_index n = n)) /\
  (is_ok (torch_device (device_string host (system_properties ctx))) = false ->
   is_ok (fst (initialize host ctx p)) = false /\
   device (self (snd (initialize host ctx p))) = device (self p) /\
   model (self (snd (initialize host ctx p))) = model (self p) /\
   initialized (self (snd (initialize host ctx p))) = initialized (self p)).
Proof.
  intros Hc. split; [| split].
  - split.
    + intros Hok.
      destruct (gpu_id (system_properties ctx)) as [n|] eqn:Hg.
      * exists n. split; [reflexivity |].
        destruct (Z.lt_ge_cases n 0) as [Hn | Hn].
        { rewrite (resolve_device_negative _ _ _ Hc Hg Hn) in Hok. discriminate. }
        destruct (Z.lt_ge_cases INT_MAX n) as [Hbig | Hbig]; [| lia].
        rewrite (resolve_device_too_large _ _ _ Hc Hg Hbig) in Hok. discriminate.
      * destruct (resolve_device_accelerator_no_gpu_id _ _ Hc Hg) as [_ Hr].
        rewrite Hr in Hok. discriminate.
    + intros (n & Hg & Hn).
      rewrite (resolve_device_accelerator_int _ _ _ Hc Hg Hn). reflexivity.
  - intros n Hg Hn. split.
    + apply (resolve_device_accelerator_int _ _ _ Hc Hg Hn).
    + intros Hs. apply to_device_index_small. lia.
  - intros Hbad.
    destruct (torch_device (device_string host (system_properties ctx)))
      as [d|e] eqn:E; [discriminate |].
    rewrite (initialize_resolve_raise _ _ _ _ E). repeat split.
Qed.

(** X11 at samples: [gpu_id] 3 and [gpu_id] 256 are accepted, the second
    with index 0; [gpu_id] -2 and a [gpu_id] of twenty digits are not. *)
Lemma accelerator_needs_index_witness :
  let host := Samples.host_of true Samples.no_ipex Samples.lscpu_ht ["/m/model.pt"] [] in
  let p := fresh_process ∅ in
  torch_device (device_string host (system_properties (Samples.context_of (Some 3%Z) None)))
  = Ok (cuda 3) /\
  torch_device (device_string host (system_properties (Samples.context_of (Some 256%Z) None)))
  = Ok (cuda 0) /\
  is_ok (fst (initialize host (Samples.context_of (Some (-2)%Z) None) p)) = false /\
  is_ok (fst (initialize host
                (Samples.context_of (Some 99999999999999999999%Z) None) p)) = false.
Proof.
  intros host p.
  assert (H3 : (0 <= 3 <= INT_MAX)%Z) by (unfold INT_MAX; lia).
  assert (H256 : (0 <= 256 <= INT_MAX)%Z) by (unfold INT_MAX; lia).
  split; [| split; [| split]].
  - exact (proj1 (proj1 (proj2 (accelerator_needs_index host
                                  (Samples.context_of (Some 3%Z) None) p eq_refl))
                    3%Z eq_refl H3)).
  - exact (proj1 (proj1 (proj2 (accelerator_needs_index host
                                  (Samples.context_of (Some 256%Z) None) p eq_refl))
                    256%Z eq_refl H256)).
  - exact (proj1 (proj2 (proj2 (accelerator_needs_index host
                                  (Samples.context_of (Some (-2)%Z) None) p eq_refl))
                    eq_refl)).
  - exact (proj1 (proj2 (proj2 (accelerator_needs_index host
                                  (Samples.context_of (Some 99999999999999999999%Z) None)
                                  p eq_refl))
                    eq_refl)).
Defined.

(** ** Failures of the eager branch before the class is instantiated *)

Section EagerFailures.
Variables (host : Host) (ctx : Context) (path def_path : string) (d0 : Device).
Hypothesis Hartifact : artifact_path ctx = Some path.
Hypothesis Hartifact_file : isfile host path = true.
Hypothesis Hdef : model_def_path ctx = Some def_path.
Hypothesis Hdef_file : isfile host def_path = true.
Hypothesis Hresolve :
  torch_device (device_string host (system_properties ctx)) = Ok d0.

Lemma eager_failure p e :
  (forall q, load_eager host (model_file_of ctx) path (map_location_of host) q
             = (Raise e, q)) ->
  fst (initialize host ctx p) = Raise e /\
  model (self (snd (initialize host ctx p))) = model (self p).
Proof.
  intros Hload.
  destruct (before_load_model host ctx d0 p) as (Hman & Hm & _).
  rewrite (initialize_resolve_ok _ _ _ _ Hresolve).
  assert (Hrun : load_model host (model_dir (system_properties ctx))
                   (map_location_of host)
                   (after_probe host (after_resolve ctx d0 p))
                 = (Raise e, after_probe host (after_resolve ctx d0 p))).
  { rewrite (load_model_eager _ _ _ _ Hartifact Hartifact_file Hdef Hdef_file _ Hman).
    apply bind_raise, Hload. }
  rewrite (bind_raise _ _ _ _ _ Hrun). split; [reflexivity | exact Hm].
Qed.

(** X12.  In the eager branch, the device being resolved and both files
    being there: an error raised by importing the module, by reading the
    artifact or by calling the model class is raised by [initialize] as it
    is, with [self.model] untouched.  The artifact is read before the class
    is called, so a failing read raises whatever the class would do. *)
Theorem eager_branch_errors p :
  (forall e,
      import_module host (Py.split_first "." (model_file_of ctx)) = Raise e ->
      fst (initialize host ctx p) = Raise e /\
      model (self (snd (initialize host ctx p))) = model (self p)) /\
  (forall module c e,
      import_module host (Py.split_first "." (model_file_of ctx)) = Ok module ->
      list_classes_from_module module = [c] ->
      torch_load host path (map_location_of host) = Raise e ->
      fst (initialize host ctx p) = Raise e /\
      model (self (snd (initialize host ctx p))) = model (self p)) /\
  (forall module c sd e,
      import_module host (Py.split_first "." (model_file_of ctx)) = Ok module ->
      list_classes_from_module module = [c] ->
      torch_load host path (map_location_of host) = Ok sd ->
      cls_call c = Raise e ->
      fst (initialize host ctx p) = Raise e /\
      model (self (snd (initialize host ctx p))) = model (self p)).
Proof.
  split; [| split].
  - intros e Hi. apply eager_failure. intros q.
    unfold load_eager, bind, lift. rewrite Hi. reflexivity.
  - intros module c e Hi Hone Hl. apply eager_failure. intros q.
    unfold load_eager, bind, lift. rewrite Hi, Hone, Hl. reflexivity.
  - intros module c sd e Hi Hone Hl Hc. apply eager_failure. intros q.
    unfold load_eager, bind, lift. rewrite Hi, Hone, Hl, Hc. reflexivity.
Qed.

End EagerFailures.

(** X12 at samples: a model file whose module cannot be imported, and a
    module whose one class cannot be called. *)
Lemma eager_branch_errors_witness :
  let p := fresh_process ∅ in
  fst (initialize (Samples.host_of false Samples.no_ipex Samples.lscpu_ht
                     ["/m/model.pt"; "/m/net.py"] [Samples.Net])
         (Samples.context_of None (Some "net.py")) p)
  = Raise (ImportError "No module named 'net'") /\
  fst (initialize (Samples.host_of false Samples.no_ipex Samples.lscpu_ht
                     ["/m/model.pt"; "/m/model.py"] [Samples.Other])
         (Samples.context_of None (Some "model.py")) p)
  = Raise (TypeError "not a model").
Proof.
  intros p. split.
  - exact (proj1 (proj1 (eager_branch_errors
             (Samples.host_of false Samples.no_ipex Samples.lscpu_ht
                ["/m/model.pt"; "/m/net.py"] [Samples.Net])
             (Samples.context_of None (Some "net.py")) "/m/model.pt" "/m/net.py" cpu
             eq_refl eq_refl eq_refl eq_refl eq_refl p) _ eq_refl)).
  - exact (proj1 (proj2 (proj2 (eager_branch_errors
             (Samples.host_of false Samples.no_ipex Samples.lscpu_ht
                ["/m/model.pt"; "/m/model.py"] [Samples.Other])
             (Samples.context_of None (Some "model.py")) "/m/model.pt" "/m/model.py" cpu
             eq_refl eq_refl eq_refl eq_refl eq_refl p))
             (Samples.module_of [Samples.Other]) Samples.Other
             [("fc.weight", [3; 4]%Z)] _ eq_refl eq_refl eq_refl eq_refl)).
Defined.

(** ** The name of the module that is imported *)

Lemma split_first_before_dot stem rest :
  Py.after_first "." stem = None ->
  Py.split_first "." (stem +:+ "." +:+ rest) = stem.
Proof.
  change ("." +:+ rest) with (String "." rest).
  induction stem as [|c stem IH]; [reflexivity |].
  change (String c stem +:+ String "." rest)
    with (String c (stem +:+ String "." rest)).
  cbn [Py.split_first Py.after_first].
  destruct (Ascii.eqb c "."); [discriminate |].
  intros H. f_equal. apply IH, H.
Qed.

Lemma split_first_no_dot name :
  Py.after_first "." name = None -> Py.split_first "." name = name.
Proof.
  induction name as [|c name IH]; cbn; [reflexivity |].
  destruct (Ascii.eqb c "."); [discriminate |].
  intros H. f_equal. apply IH, H.
Qed.

(** X13.  The eager branch imports the module named by the text of
    [modelFile] before its first dot: for a model file [stem.rest] whose stem
    has no dot it asks for [stem], whatever [rest] is (so "net.v2.py" asks
    for "net"), and for a model file without dot it asks for the whole name.
    When that import raises, the branch raises the same error; when it gives
    a module that does not define exactly one class, the branch raises the
    ambiguous-definition error listing the classes of that module. *)
Theorem eager_imports_stem host stem rest path ml q :
  Py.after_first "." stem = None ->
  (forall e, import_module host stem = Raise e ->
             load_eager host (stem +:+ "." +:+ rest) path ml q = (Raise e, q) /\
             load_eager host stem path ml q = (Raise e, q)) /\
  (forall module,
      import_module host stem = Ok module ->
      length (list_classes_from_module module) <> 1 ->
      load_eager host (stem +:+ "." +:+ rest) path ml q
      = (Raise (ambiguous_model_definition (list_classes_from_module module)), q)).
Proof.
  intros Hstem. split.
  - intros e He. unfold load_eager, bind, lift.
    rewrite (split_first_before_dot _ _ Hstem), (split_first_no_dot _ Hstem), He.
    split; reflexivity.
  - intros module Hm Hlen. unfold load_eager, bind, lift.
    rewrite (split_first_before_dot _ _ Hstem), Hm.
    rewrite (not_singleton _ _ _ _ Hlen). reflexivity.
Qed.

(** X13 at a sample: the model file "net.v2.py" on a host that only has the
    module [model]. *)
Lemma eager_imports_stem_witness :
  let host := Samples.host_of false Samples.no_ipex Samples.lscpu_ht [] [Samples.Net] in
  load_eager host "net.v2.py" "/m/model.pt" "cpu" (fresh_process ∅)
  = (Raise (ImportError "No module named 'net'"), fresh_process ∅).
Proof.
  intros host.
  exact (proj1 (proj1 (eager_imports_stem host "net" "v2.py" "/m/model.pt" "cpu"
                         (fresh_process ∅) eq_refl) _ eq_refl)).
Defined.

(** ** A probe that fails after enabling mixed precision *)



